(** * NEURO-OS backend: the responder, its command gate and its model gateway

    A shallow embedding of [agents/llama3_agent.py] (class [Llama3Agent]) and
    of the streaming path of [core/ollama_client.py] (class [OllamaClient]),
    with the properties of the specification stated over it.

    Python strings are modelled as [string]: a sequence of characters, each
    an [ascii] standing for a code point below 256.  The host (HTTP
    transport, process spawning, file system) is a record of oracles that is
    passed to every operation that touches it. *)

From Stdlib Require Import ZArith Ascii String DecimalString.
From stdpp Require Import base option list strings gmap.

Local Open Scope Z_scope.

(** ** Python's [str] methods used by the agent *)

Module Py.

(** [str.isspace] on one character ([Py_UNICODE_ISSPACE]); the same class
    is used by [str.strip], by [str.split] without a separator and by the
    regular expression class [\s]. *)
Definition isspace (c : ascii) : bool :=
  match c with
  | "009" | "010" | "011" | "012" | "013"
  | "028" | "029" | "030" | "031" | " "
  | "133" | "160" => true
  | _ => false
  end%char.

(** [s.lstrip()] *)
Fixpoint lstrip (s : string) : string :=
  match s with
  | EmptyString => EmptyString
  | String c s' => if isspace c then lstrip s' else s
  end.

(** [s.rstrip()] *)
Fixpoint rstrip (s : string) : string :=
  match s with
  | EmptyString => EmptyString
  | String c s' =>
      match rstrip s' with
      | EmptyString => if isspace c then EmptyString else String c EmptyString
      | r => String c r
      end
  end.

(** [s.strip()] *)
Definition strip (s : string) : string := rstrip (lstrip s).

(** Truth value of a string: [if s:] *)
Definition nonempty (s : string) : bool :=
  match s with EmptyString => false | _ => true end.

(** [s.startswith(p)] *)
Definition startswith (s p : string) : bool := String.prefix p s.

(** The text after the prefix [p], when [s] starts with it. *)
Fixpoint after_prefix (p s : string) : option string :=
  match p, s with
  | EmptyString, _ => Some s
  | String a p', String b s' =>
      if Ascii.eqb a b then after_prefix p' s' else None
  | String _ _, EmptyString => None
  end.

(** [s[n:]] *)
Fixpoint slice_from (n : nat) (s : string) : string :=
  match n, s with
  | O, _ => s
  | S n', String _ s' => slice_from n' s'
  | S _, EmptyString => EmptyString
  end.

(** [s.split(sep)] for a one-character separator: never an empty list. *)
Fixpoint split (sep : ascii) (s : string) : list string :=
  match s with
  | EmptyString => [EmptyString]
  | String c s' =>
      if Ascii.eqb c sep then EmptyString :: split sep s'
      else match split sep s' with
           | [] => [String c EmptyString]
           | w :: ws => String c w :: ws
           end
  end.

(** The longest prefix without whitespace, and what follows it. *)
Fixpoint span_word (s : string) : string * string :=
  match s with
  | EmptyString => (EmptyString, EmptyString)
  | String c s' =>
      if isspace c then (EmptyString, s)
      else let '(w, r) := span_word s' in (String c w, r)
  end.

(** [s.split(maxsplit=1)]: whitespace-separated, at most one split. *)
Definition split_maxsplit1 (s : string) : list string :=
  match lstrip s with
  | EmptyString => []
  | s1 =>
      let '(w, r) := span_word s1 in
      match lstrip r with
      | EmptyString => [w]
      | r' => [w; r']
      end
  end.

(** [x in l] for a list of strings *)
Definition in_list (x : string) (l : list string) : bool :=
  bool_decide (x ∈ l).

(** [needle in s]: substring test *)
Fixpoint contains (s needle : string) : bool :=
  String.prefix needle s
  || match s with
     | EmptyString => false
     | String _ s' => contains s' needle
     end.

(** [str(n)] for an integer *)
Definition str_of_int (n : Z) : string := NilZero.string_of_int (Z.to_int n).

(** The newline character, as in the escape [\n]. *)
Definition nl : string := String "010" EmptyString.

End Py.

(** ** [os.path] on a POSIX host ([posixpath]) *)

Module PosixPath.

Definition ends_with_slash (s : string) : bool :=
  match String.rev s with
  | String "/" _ => true
  | _ => false
  end.

(** [os.path.join(a, b)] *)
Definition join (a b : string) : string :=
  if Py.startswith b "/" then b
  else if negb (Py.nonempty a) || ends_with_slash a then a +:+ b
  else a +:+ "/" +:+ b.

(** The loop of [normpath] over the components; [acc] is [new_comps]
    with its last element first. *)
Fixpoint norm_comps (initial_slashes : bool) (acc comps : list string)
  : list string :=
  match comps with
  | [] => acc
  | comp :: rest =>
      if Py.in_list comp [""; "."] then norm_comps initial_slashes acc rest
      else if negb (String.eqb comp "..")
              || (negb initial_slashes && bool_decide (acc = []))
              || match acc with ".." :: _ => true | _ => false end
      then norm_comps initial_slashes (comp :: acc) rest
      else norm_comps initial_slashes (tail acc) rest
  end.

(** ['/'.join(comps)] *)
Fixpoint join_slash (comps : list string) : string :=
  match comps with
  | [] => ""
  | [c] => c
  | c :: rest => c +:+ "/" +:+ join_slash rest
  end.

(** [os.path.normpath(path)] *)
Definition normpath (path : string) : string :=
  if negb (Py.nonempty path) then "."
  else
    let initial_slashes := Py.startswith path "/" in
    let prefix :=
      if initial_slashes
      then if Py.startswith path "//" && negb (Py.startswith path "///")
           then "//" else "/"
      else "" in
    let comps := rev (norm_comps initial_slashes [] (Py.split "/" path)) in
    let path' := prefix +:+ join_slash comps in
    if Py.nonempty path' then path' else ".".

(** [os.path.abspath(path)]; [getcwd] is the directory of the process. *)
Definition abspath (getcwd path : string) : string :=
  normpath (if Py.startswith path "/" then path else join getcwd path).

End PosixPath.

(** ** Values exchanged with the host *)

(** Decoded JSON, as [json.loads] returns it: [None], [bool], [int], [str],
    [list] and [dict] (the items of the dict, keys unique). *)
#[local] Unset Elimination Schemes.
Inductive json : Type :=
| JNull
| JBool (b : bool)
| JNum (n : Z)
| JStr (s : string)
| JArr (items : list json)
| JObj (fields : list (string * json)).
#[local] Set Elimination Schemes.

(** The exceptions that can leave the modelled code; those of the
    transport and of the process call are caught where they arise and are
    part of [transport] and [run_outcome] below. *)
Inductive exn : Type :=
| ValueError (msg : string)
| TypeError
| AttributeError
| KeyError (key : string)
| OtherError (msg : string).

(** A computation that returns or raises. *)
Inductive result (A : Type) : Type :=
| Return (a : A)
| Raise (e : exn).
Arguments Return {A} a.
Arguments Raise {A} e.

(** One line of a streamed HTTP body, as the client's loop sees it. *)
Inductive wire_line : Type :=
| Blank                   (* the empty line: skipped by [if line:] *)
| Undecodable             (* [json.loads] raises [JSONDecodeError] *)
| Decoded (j : json).     (* [json.loads] returns [j] *)

(** What [sync_client.stream("POST", ...)] followed by [raise_for_status]
    and [iter_lines] does for one request.  A body that breaks off with an
    exception after some lines is the same to the client as one that ends
    there (the handler of [Exception] returns), so [Lines] covers both.
    The handler of [HTTPStatusError] reads [e.response.text] to build its
    message, which the response of a streamed request may refuse with an
    exception of its own: [text] is what that read does. *)
Inductive transport : Type :=
| Refused                                  (* [httpx.ConnectError] *)
| BadStatus (status_code : Z) (text : result string)
                                           (* [httpx.HTTPStatusError] *)
| Fault (msg : string)                     (* any other exception *)
| Lines (ls : list wire_line).

(** What [subprocess.run(..., shell=True, capture_output=True, text=True,
    check=True, cwd=...)] does, as far as the [try] statement around it
    deals with it: the process ran to an exit status, or the call raised
    an exception that one of the three handlers catches.  An exception
    that none of them catches ([KeyboardInterrupt] while the process
    runs, which is no [Exception]) is not among these outcomes: a turn
    that is interrupted half-way is outside this model. *)
Inductive run_outcome : Type :=
| Exited (returncode : Z) (stdout stderr : string)
| FileNotFoundError
| RunError (msg : string).                 (* any other exception, [str(e)] *)

(** One message of a conversation: the dict with keys [role] and [content]. *)
Record Turn : Type := mkTurn { role : string; content : string }.

(** The host of one turn. *)
Record Host : Type := mkHost {
  http_stream : string -> string -> list Turn -> transport;
                                      (* url path, model, messages *)
  subprocess_run : string -> string -> run_outcome; (* command, cwd *)
  os_path_exists : string -> bool;
  os_path_isdir : string -> bool;
  os_getcwd : string
}.

(** ** core/ollama_client.py *)

Module OllamaClient.

(** [if v:] on a decoded value *)
Definition truthy (v : json) : bool :=
  match v with
  | JNull => false
  | JBool b => b
  | JNum n => negb (n =? 0)
  | JStr s => Py.nonempty s
  | JArr items => bool_decide (items ≠ [])
  | JObj fields => bool_decide (fields ≠ [])
  end.

(** [d.get(key)] on the items of a dict *)
Fixpoint dict_get (fields : list (string * json)) (key : string) : option json :=
  match fields with
  | [] => None
  | (k, v) :: rest => if String.eqb k key then Some v else dict_get rest key
  end.

(** [key in v] *)
Definition py_in (key : string) (v : json) : result bool :=
  match v with
  | JObj fields => Return (bool_decide (is_Some (dict_get fields key)))
  | JStr s => Return (Py.contains s key)
  | JArr items =>
      Return (existsb (fun x => match x with
                                | JStr s => String.eqb s key
                                | _ => false
                                end) items)
  | _ => Raise TypeError
  end.

(** [v[key]] for a string key; reached only after [key in v] held. *)
Definition py_getitem (v : json) (key : string) : result json :=
  match v with
  | JObj fields =>
      match dict_get fields key with
      | Some x => Return x
      | None => Raise (KeyError key)
      end
  | _ => Raise TypeError
  end.

(** [v.get(key)] *)
Definition py_get (v : json) (key : string) : result json :=
  match v with
  | JObj fields => Return (default JNull (dict_get fields key))
  | _ => Raise AttributeError
  end.

(** [_extract_content]; [JNull] is Python's [None]. *)
Definition _extract_content (response : json) : result json :=
  match py_in "message" response with
  | Raise e => Raise e
  | Return has_message =>
      let else_branch :=
        match py_in "response" response with
        | Raise e => Raise e
        | Return true => py_getitem response "response"
        | Return false => Return JNull
        end in
      if has_message then
        match py_getitem response "message" with
        | Raise e => Raise e
        | Return message =>
            match py_in "content" message with
            | Raise e => Raise e
            | Return true =>
                match py_getitem message "content" with
                | Raise e => Raise e
                | Return c => Return c
                end
            | Return false => else_branch
            end
        end
      else else_branch
  end.

(** The loop over [response.iter_lines()]: the values yielded.  An
    exception other than [JSONDecodeError] leaves the loop and is caught
    by the handler of [Exception], whose [return None] ends the
    generator. *)
Fixpoint stream_lines (ls : list wire_line) : list json :=
  match ls with
  | [] => []
  | Blank :: rest => stream_lines rest
  | Undecodable :: rest => stream_lines rest
  | Decoded json_data :: rest =>
      match _extract_content json_data with
      | Raise _ => []
      | Return c =>
          let yielded := match c with JNull => [] | _ => [c] end in
          match py_get json_data "done" with
          | Raise _ => yielded
          | Return done =>
              if truthy done then yielded else yielded ++ stream_lines rest
          end
      end
  end.

(** A generator object, by what iterating it to the end produces: the
    values it yields and, when its body lets an exception escape, that
    exception. *)
Record generator : Type := mkGenerator {
  yields : list json;
  escapes : option exn
}.

(** [generate_text(model_name=..., messages=..., stream=True)], with
    [prompt] left at its default [None], as the agent calls it.
    The function body holds a [yield], so Python compiles it as a
    generator function: the call runs none of the body and returns the
    generator object, never [None].  Every [return] of the body,
    [return None] of the four handlers included, only ends the
    iteration; the [ValueError] of the missing input is raised outside
    the [try] and escapes at the first step of the iteration. *)
Definition generate_text (h : Host) (model_name : string)
    (messages : list Turn) : option generator :=
  Some
    (if bool_decide (messages ≠ []) then
       match http_stream h "/chat" model_name messages with
       | Lines ls => mkGenerator (stream_lines ls) None
       | Refused => mkGenerator [] None
       | BadStatus _ (Return _) => mkGenerator [] None
       | BadStatus _ (Raise e) => mkGenerator [] (Some e)
       | Fault _ => mkGenerator [] None
       end
     else
       mkGenerator []
         (Some (ValueError
            "Either 'prompt' or 'messages' must be provided to generate_text."))).

End OllamaClient.

(** ** agents/llama3_agent.py *)

(** The three kinds of model output told apart by [process_query]. *)
Inductive ClassifiedResponse : Type :=
| Command (commandText : string)
| Code (body : string)
| Text (body : string).

(** The outcome of the checks made before a command is run. *)
Inductive SafetyDecision : Type :=
| Allowed (base_command : string)
| Denied (reason : string).

Module Llama3Agent.

(** The fields of the agent that the modelled methods read or write. *)
Record t : Type := mk {
  model_name : string;
  system_message : string;
  conversation_history : list Turn;
  whitelisted_commands : gmap string bool;
  current_working_directory : string
}.

Definition the_system_message : string :=
  "You are an intelligent OS assistant integrated into a custom operating system. "
  +:+ "Your core purpose is to help the user interact with and manage their system, "
  +:+ "as well as answer general questions concisely. "
  +:+ "Always be aware of the 'Current Working Directory'. "
  +:+ "When the user asks you to perform a system action (like listing files, creating folders, running programs, etc.), "
  +:+ "you must respond in one of the following formats:" +:+ Py.nl +:+ Py.nl
  +:+ "1.  **For Shell Commands:** If a shell command is needed, output ONLY the command prefixed with `[COMMAND]:` on a new line, like this: `[COMMAND]:ls -l`" +:+ Py.nl
  +:+ "    * Ensure the command is part of the whitelisted commands. "
  +:+ "    * Handle `cd` commands internally by updating your current directory. "
  +:+ "    * Do NOT include any other text (like 'Okay, here's the command:') when giving a command." +:+ Py.nl
  +:+ "2.  **For Python Code:** If the request requires Python code, output the code in a standard markdown code block (```python\n...\n```)." +:+ Py.nl
  +:+ "3.  **For General Answers:** For conversational responses or information that doesn't involve system actions, respond directly and concisely." +:+ Py.nl +:+ Py.nl
  +:+ "Prioritize system interactions when clearly requested. Be direct and avoid unnecessary conversational filler.".

Definition the_whitelist : gmap string bool :=
  list_to_map
    [("ls", true); ("pwd", true); ("cat", true); ("echo", true);
     ("find", true); ("grep", true); ("df", true); ("du", true);
     ("ps", true); ("whoami", true); ("mkdir", true); ("rmdir", true);
     ("touch", true); ("rm", true)].

(** [__init__]; [home] is what [os.path.expanduser("~")] returns. *)
Definition __init__ (home : string) : t :=
  {| model_name := "llama3.2:1b-instruct-q2_K";
     system_message := the_system_message;
     conversation_history := [];
     whitelisted_commands := the_whitelist;
     current_working_directory := home |}.

Definition append_history (self : t) (turn : Turn) : t :=
  {| model_name := model_name self;
     system_message := system_message self;
     conversation_history := conversation_history self ++ [turn];
     whitelisted_commands := whitelisted_commands self;
     current_working_directory := current_working_directory self |}.

Definition set_cwd (self : t) (d : string) : t :=
  {| model_name := model_name self;
     system_message := system_message self;
     conversation_history := conversation_history self;
     whitelisted_commands := whitelisted_commands self;
     current_working_directory := d |}.

(** The commands that the parent-directory check lets through. *)
Definition navigation_commands : list string :=
  ["cd"; "ls"; "cat"; "find"; "grep"].

Definition traversal_alert : string :=
  "Security Alert: Command contains '..' and is not a permitted navigation/read command. Execution blocked.".

Definition not_whitelisted (base_command : string) : string :=
  "Error: Command '" +:+ base_command
  +:+ "' is not explicitly whitelisted for execution.".

(** The head of [_execute_shell_command], up to the last early return:
    the checks that stand between a command text and [subprocess.run]. *)
Definition evaluate (self : t) (command_string : string) : SafetyDecision :=
  match Py.split_maxsplit1 (Py.strip command_string) with
  | [] => Denied "Error: No command provided for execution."
  | base_command :: _ =>
      if Py.in_list ".." (Py.split "/" command_string)
         && negb (Py.in_list base_command navigation_commands)
      then Denied traversal_alert
      else
        match whitelisted_commands self !! base_command with
        | Some true => Allowed base_command
        | _ => Denied (not_whitelisted base_command)
        end
  end.

Definition fenced (label text : string) : string :=
  label +:+ Py.nl +:+ "```bash" +:+ Py.nl +:+ text +:+ Py.nl +:+ "```".

(** The [try] statement of [_execute_shell_command]: what is reported
    for each outcome of [subprocess.run] with [check=True]. *)
Definition report (base_command : string) (r : run_outcome) : string :=
  match r with
  | Exited returncode stdout stderr =>
      if returncode =? 0 then
        let output := Py.strip stdout in
        let error_output := Py.strip stderr in
        if Py.nonempty output then fenced "Command Output:" output
        else if Py.nonempty error_output
             then fenced "Command Error:" error_output
             else "Command executed successfully with no output."
      else
        "Command failed with exit code " +:+ Py.str_of_int returncode
        +:+ ":" +:+ Py.nl +:+ fenced "Error Output:" (Py.strip stderr)
  | FileNotFoundError =>
      "Error: Command '" +:+ base_command +:+ "' not found. Is it installed?"
  | RunError msg =>
      "An unexpected error occurred during command execution: " +:+ msg
  end.

(** [_execute_shell_command]: the text returned, and the calls made to
    [subprocess.run] as pairs of command and working directory. *)
Definition _execute_shell_command (h : Host) (self : t)
    (command_string : string) : string * list (string * string) :=
  match evaluate self command_string with
  | Denied reason => (reason, [])
  | Allowed base_command =>
      let cwd := current_working_directory self in
      (report base_command (subprocess_run h command_string cwd),
       [(command_string, cwd)])
  end.

(** The [re.match] of [process_query] with flag [DOTALL]: its pattern is
    the literal marker [COMMAND] in square brackets and a colon, then
    greedy whitespace, then one group taking any characters to the end.
    The result is group 1 when the pattern matches at the start of [s]. *)
Definition command_match (s : string) : option string :=
  Py.lstrip <$> Py.after_prefix "[COMMAND]:" s.

(** The three-way branch of [process_query] on the collected text. *)
Definition classify (full_response : string) : ClassifiedResponse :=
  let final_response := Py.strip full_response in
  match command_match final_response with
  | Some group1 => Command (Py.strip group1)
  | None =>
      if Py.startswith final_response "```python"
      then Code final_response
      else Text final_response
  end.

(** The directory change of [process_query]: the agent afterwards and
    the message. *)
Definition change_directory (h : Host) (self : t) (command_string : string)
  : t * string :=
  let new_path := Py.strip (Py.slice_from 3 command_string) in
  let absolute_new_path :=
    PosixPath.abspath (os_getcwd h)
      (PosixPath.join (current_working_directory self) new_path) in
  if os_path_exists h absolute_new_path && os_path_isdir h absolute_new_path
  then (set_cwd self absolute_new_path,
        "Changed current working directory to: `" +:+ absolute_new_path +:+ "`")
  else (self,
        "Error: Cannot change directory to `" +:+ new_path
        +:+ "`. Path does not exist or is not a directory.").

(** The loop [for chunk in response_generator] over the yielded values:
    [full_response += chunk] raises [TypeError] for a chunk that is true
    and not a string. *)
Fixpoint drain (full_response : string) (chunks : list json) : result string :=
  match chunks with
  | [] => Return full_response
  | chunk :: rest =>
      if OllamaClient.truthy chunk then
        match chunk with
        | JStr s => drain (full_response +:+ s) rest
        | _ => Raise TypeError
        end
      else drain full_response rest
  end.

(** What one call of [process_query] leaves behind. *)
Record turn : Type := mkTurnResult {
  returned : result string;
  agent : t;
  spawned : list (string * string)
}.

Definition apology : string :=
  "I'm sorry, I'm having trouble connecting to the model right now. Please try again later.".

Definition user_turn (query : string) : Turn := mkTurn "user" query.
Definition assistant_turn (text : string) : Turn := mkTurn "assistant" text.

(** The first statements of [process_query]: the conversation sent to
    the model, which is the system message with the working directory
    followed by the history, the new user turn included. *)
Definition messages_for_ollama (self : t) (query : string) : list Turn :=
  let dynamic_system_message :=
    system_message self +:+ Py.nl +:+ Py.nl
    +:+ "Current Working Directory: " +:+ current_working_directory self in
  mkTurn "system" dynamic_system_message
  :: conversation_history (append_history self (user_turn query)).

(** The [for] loop of [process_query] run on a generator object. *)
Definition collect (response_generator : OllamaClient.generator)
  : result string :=
  match drain "" (OllamaClient.yields response_generator) with
  | Raise e => Raise e
  | Return full_response =>
      match OllamaClient.escapes response_generator with
      | Some e => Raise e
      | None => Return full_response
      end
  end.

(** The rest of [process_query], from [final_response] on. *)
Definition respond (h : Host) (self : t) (full_response : string) : turn :=
  match classify full_response with
  | Command command_string =>
      if Py.startswith command_string "cd " then
        let '(self, response_msg) := change_directory h self command_string in
        mkTurnResult (Return response_msg)
          (append_history self (assistant_turn response_msg)) []
      else
        let '(execution_result, calls) :=
          _execute_shell_command h self command_string in
        mkTurnResult (Return execution_result)
          (append_history self (assistant_turn execution_result)) calls
  | Code final_response =>
      mkTurnResult (Return final_response)
        (append_history self (assistant_turn final_response)) []
  | Text final_response =>
      mkTurnResult (Return final_response)
        (append_history self (assistant_turn final_response)) []
  end.

(** [process_query] *)
Definition process_query (h : Host) (self : t) (query : string) : turn :=
  let messages := messages_for_ollama self query in
  let self := append_history self (user_turn query) in
  match OllamaClient.generate_text h (model_name self) messages with
  | None => mkTurnResult (Return apology) self []
  | Some response_generator =>
      match collect response_generator with
      | Raise e => mkTurnResult (Raise e) self []
      | Return full_response => respond h self full_response
      end
  end.

End Llama3Agent.

(** ** Vocabulary of the properties *)

(** The base token of a command text: its first whitespace-delimited word,
    [cmd_parts[0]] of [_execute_shell_command]. *)
Definition base_token (command_string : string) : option string :=
  head (Py.split_maxsplit1 (Py.strip command_string)).

(** A text made of whitespace only (the empty text included). *)
Fixpoint all_space (s : string) : bool :=
  match s with
  | EmptyString => true
  | String c s' => Py.isspace c && all_space s'
  end.

(** The request failed and a handler of [generate_text] dealt with it. *)
Definition transport_failed (t : transport) : Prop :=
  match t with
  | Refused | Fault _ | BadStatus _ (Return _) => True
  | _ => False
  end.

(** In this turn the gateway hands [full_response] to the responder: the
    generator obtained for the query, drained, gives that text. *)
Definition model_says (h : Host) (self : Llama3Agent.t)
    (query full_response : string) : Prop :=
  exists g,
    OllamaClient.generate_text h (Llama3Agent.model_name self)
      (Llama3Agent.messages_for_ollama self query) = Some g
    /\ Llama3Agent.collect g = Return full_response.

(** The absolute path that a directory change to [new_path] resolves to. *)
Definition resolved (h : Host) (self : Llama3Agent.t) (new_path : string) : string :=
  PosixPath.abspath (os_getcwd h)
    (PosixPath.join (Llama3Agent.current_working_directory self) new_path).

(** Hosts for worked examples. *)
Module Fixture.

(** A streamed chat body that carries [text] in one fragment and then the
    end-of-stream object. *)
Definition says (text : string) : transport :=
  Lines
    [Decoded (JObj [("message", JObj [("role", JStr "assistant");
                                      ("content", JStr text)]);
                    ("done", JBool false)]);
     Decoded (JObj [("done", JBool true)])].

(** A host that answers every request with [t], ends every process with
    [r], and whose directories are [dirs]. *)
Definition host (t : transport) (r : run_outcome) (dirs : list string) : Host :=
  {| http_stream := fun _ _ _ => t;
     subprocess_run := fun _ _ => r;
     os_path_exists := fun p => Py.in_list p dirs;
     os_path_isdir := fun p => Py.in_list p dirs;
     os_getcwd := "/srv/neuro" |}.

Definition agent : Llama3Agent.t := Llama3Agent.__init__ "/home/user".

Definition tab : string := String "009" EmptyString.

End Fixture.

(** ** core/ollama_client.py: the other paths of the client *)

(** What [sync_client.post(...)], [raise_for_status] and [response.json()]
    do for one request that is not streamed; [A] is what the decoded body
    is read as. *)
Inductive post_outcome (A : Type) : Type :=
| PostRefused                                   (* [httpx.ConnectError] *)
| PostBadStatus (status_code : Z) (text : string) (* [httpx.HTTPStatusError] *)
| PostFault (msg : string)                      (* any other exception *)
| PostUndecodable                               (* [response.json()] raises *)
| PostBody (body : A).
Arguments PostRefused {A}.
Arguments PostBadStatus {A} status_code text.
Arguments PostFault {A} msg.
Arguments PostUndecodable {A}.
Arguments PostBody {A} body.

Module OllamaApi.

(** A request as the transport sees it: the path, and of [request_data]
    the model, the conversation or the prompt, and the flag.  The sampling
    options are passed on as given and are left to the transport. *)
Record request : Type := mkRequest {
  url_path : string;
  model : string;
  messages : option (list Turn);
  prompt : option string;
  stream : bool
}.

(** The two calls of [sync_client] made by [generate_text]. *)
Record Client : Type := mkClient {
  client_stream : request -> transport;
  client_post : request -> post_outcome json
}.

(** [if messages:] for an optional list *)
Definition list_truthy {A : Type} (o : option (list A)) : bool :=
  match o with
  | Some (_ :: _) => true
  | _ => false
  end.

(** [if prompt:] for an optional string *)
Definition str_truthy (o : option string) : bool :=
  match o with
  | Some (String _ _) => true
  | _ => false
  end.

Definition missing_input : string :=
  "Either 'prompt' or 'messages' must be provided to generate_text.".

(** The choice of the endpoint and of the request body: the statement
    [if messages: ... elif prompt: ... else: raise ValueError]. *)
Definition route (model_name : string) (prompt : option string)
    (messages : option (list Turn)) (system_message : option string)
    (stream : bool) : result request :=
  if list_truthy messages then
    Return (mkRequest "/chat" model_name messages None stream)
  else if str_truthy prompt then
    let body := default "" prompt in
    let body :=
      if str_truthy system_message
      then default "" system_message +:+ Py.nl +:+ Py.nl +:+ body
      else body in
    Return (mkRequest "/generate" model_name None (Some body) stream)
  else Raise (ValueError missing_input).

(** [generate_text] with all its arguments.  As the body holds a [yield]
    the call returns a generator in both modes.  Without [stream] the body
    posts the request and ends at a [return] statement on every path (the
    extracted content, or the message of a handler): the value of that
    statement travels with [StopIteration] and is not seen by a loop over
    the generator, which gets no item. *)
Definition generate_text (c : Client) (model_name : string)
    (prompt : option string) (messages : option (list Turn))
    (system_message : option string) (stream : bool)
  : option OllamaClient.generator :=
  Some
    (match route model_name prompt messages system_message stream with
     | Raise e => OllamaClient.mkGenerator [] (Some e)
     | Return req =>
         if stream then
           match client_stream c req with
           | Lines ls =>
               OllamaClient.mkGenerator (OllamaClient.stream_lines ls) None
           | Refused => OllamaClient.mkGenerator [] None
           | BadStatus _ (Return _) => OllamaClient.mkGenerator [] None
           | BadStatus _ (Raise e) => OllamaClient.mkGenerator [] (Some e)
           | Fault _ => OllamaClient.mkGenerator [] None
           end
         else
           match client_post c req with
           | PostBody result =>
               match OllamaClient._extract_content result with
               | Return _ => OllamaClient.mkGenerator [] None
               | Raise _ => OllamaClient.mkGenerator [] None
               end
           | PostRefused => OllamaClient.mkGenerator [] None
           | PostBadStatus _ _ => OllamaClient.mkGenerator [] None
           | PostUndecodable => OllamaClient.mkGenerator [] None
           | PostFault _ => OllamaClient.mkGenerator [] None
           end
     end).

(** The client whose streamed chat requests are answered by the host. *)
Definition client_of (h : Host) (post : request -> post_outcome json) : Client :=
  {| client_stream := fun req =>
       http_stream h (url_path req) (model req) (default [] (messages req));
     client_post := post |}.

End OllamaApi.

Module Embeddings.

(** The decoded body of an embeddings reply, by what [.get('embedding')]
    does on it: it raises on anything but a dict, and on a dict it gives
    the vector under the key, or [None]. *)
Inductive reply (vector : Type) : Type :=
| NotAnObject
| Object (embedding : option vector).
Arguments NotAnObject {vector}.
Arguments Object {vector} embedding.

(** [OllamaClient.get_embeddings]; [post] is the call of [sync_client.post]
    with the path, the model and the text of the request. *)
Definition get_embeddings {vector : Type}
    (post : string -> string -> string -> post_outcome (reply vector))
    (model_name text : string) : option vector :=
  match post "/embeddings" model_name text with
  | PostBody (Object embedding) => embedding
  | PostBody NotAnObject => None
  | PostRefused => None
  | PostBadStatus _ _ => None
  | PostUndecodable => None
  | PostFault _ => None
  end.

(** The field [embedding_model_name] set by [Llama3Agent.__init__]. *)
Definition embedding_model_name : string := "nomic-embed-text".

(** [Llama3Agent.get_embeddings_for_text] *)
Definition get_embeddings_for_text {vector : Type}
    (post : string -> string -> string -> post_outcome (reply vector))
    (text : string) : option vector :=
  get_embeddings post embedding_model_name text.

End Embeddings.

(** ** dispatcher.py *)

Module Dispatcher.

Record t : Type := mk { llama3_agent : Llama3Agent.t }.

Definition __init__ (home : string) : t := mk (Llama3Agent.__init__ home).

(** [dispatch_request]: the turn of the agent it holds.  The slice
    [response_content[:75]] of its log line cannot fail. *)
Definition dispatch_request (h : Host) (self : t) (user_query : string)
  : Llama3Agent.turn :=
  Llama3Agent.process_query h (llama3_agent self) user_query.

End Dispatcher.

(** ** main.py *)

Module Main.

(** [str.lower] on one character with a code point below 256. *)
Definition lower_char (c : ascii) : ascii :=
  let n := nat_of_ascii c in
  if ((65 <=? n) && (n <=? 90) || (192 <=? n) && (n <=? 214)
      || (216 <=? n) && (n <=? 222))%nat
  then ascii_of_nat (n + 32)
  else c.

(** [s.lower()] *)
Fixpoint lower (s : string) : string :=
  match s with
  | EmptyString => EmptyString
  | String c s' => String (lower_char c) (lower s')
  end.

(** What [input] does at one round of the loop: a line is typed while the
    host is [h], or the user interrupts at the prompt, or [input] raises.
    An interrupt that arrives while a turn is running is not among the
    events. *)
Inductive console_event : Type :=
| Typed (h : Host) (line : string)
| Interrupted                              (* [KeyboardInterrupt] *)
| InputFailed (msg : string).              (* e.g. [EOFError] *)

(** What the loop itself prints: an answer, the report of an exception, or
    the farewell. *)
Inductive shown : Type :=
| Answer (response : string)
| Trouble (e : exn)
| Goodbye.

(** The console after some rounds. *)
Record console : Type := mkConsole {
  dispatcher : Dispatcher.t;
  screen : list shown;
  processes : list (string * string);
  running : bool
}.

Definition show (line : shown) (calls : list (string * string)) (c : console)
  : console :=
  {| dispatcher := dispatcher c;
     screen := line :: screen c;
     processes := calls ++ processes c;
     running := running c |}.

(** The [while True] loop of [main] run on the events of the console, from
    the dispatcher [d]. *)
Fixpoint main_loop (events : list console_event) (d : Dispatcher.t) : console :=
  match events with
  | [] => mkConsole d [] [] true
  | Interrupted :: _ => mkConsole d [Goodbye] [] false
  | InputFailed msg :: rest => show (Trouble (OtherError msg)) [] (main_loop rest d)
  | Typed h user_query :: rest =>
      if String.eqb (lower user_query) "exit" then mkConsole d [Goodbye] [] false
      else if negb (Py.nonempty (Py.strip user_query)) then main_loop rest d
      else
        let r := Dispatcher.dispatch_request h d user_query in
        let d' := Dispatcher.mk (Llama3Agent.agent r) in
        match Llama3Agent.returned r with
        | Return response =>
            show (Answer response) (Llama3Agent.spawned r) (main_loop rest d')
        | Raise e =>
            show (Trouble e) (Llama3Agent.spawned r) (main_loop rest d')
        end
  end.

(** [main] *)
Definition main (home : string) (events : list console_event) : console :=
  main_loop events (Dispatcher.__init__ home).

End Main.

(** ** Vocabulary of the further properties *)

(** One line of a chat stream: an object with the fragment and the flag. *)
Definition chat_line (fragment : string) (done : bool) : wire_line :=
  Decoded (JObj [("message", JObj [("role", JStr "assistant");
                                   ("content", JStr fragment)]);
                 ("done", JBool done)]).

(** [''.join(fragments)] *)
Fixpoint concat_fragments (fragments : list string) : string :=
  match fragments with
  | [] => ""
  | f :: rest => f +:+ concat_fragments rest
  end.

(** A path that starts at the root. *)
Definition absolute (path : string) : Prop := Py.startswith path "/" = true.

(** The lines that the loop hands to the dispatcher. *)
Fixpoint dispatched (events : list Main.console_event) : list string :=
  match events with
  | [] => []
  | Main.Interrupted :: _ => []
  | Main.InputFailed _ :: rest => dispatched rest
  | Main.Typed _ line :: rest =>
      if String.eqb (Main.lower line) "exit" then []
      else if negb (Py.nonempty (Py.strip line)) then dispatched rest
      else line :: dispatched rest
  end.

(** The contents of the user turns of a history. *)
Definition user_contents (history : list Turn) : list string :=
  content <$> filter (fun t => role t = "user") history.

(** The line is not the word that ends the loop and is not blank. *)
Definition is_query (line : string) : Prop :=
  String.eqb (Main.lower line) "exit" = false
  /\ Py.nonempty (Py.strip line) = true.

(** The line carries a decoded value. *)
Definition is_decoded (l : wire_line) : bool :=
  match l with
  | Decoded _ => true
  | _ => false
  end.

(** A turn of the history is one of the two kinds that the agent stores. *)
Definition stored_role (t : Turn) : Prop :=
  role t = "user" \/ role t = "assistant".

(** The names that [__init__] puts into the whitelist. *)
Definition listed_commands : list string :=
  ["ls"; "pwd"; "cat"; "echo"; "find"; "grep"; "df"; "du"; "ps"; "whoami";
   "mkdir"; "rmdir"; "touch"; "rm"].

(** * Properties *)

(** ** Strings *)

Section StringFacts.

Lemma append_cons (c : ascii) (s r : string) :
  String c s +:+ r = String c (s +:+ r).
Proof. reflexivity. Qed.

Lemma append_nil_l (r : string) : "" +:+ r = r.
Proof. reflexivity. Qed.

Lemma lstrip_head (s : string) :
  Py.lstrip s = "" \/
  exists c r, Py.lstrip s = String c r /\ Py.isspace c = false.
Proof.
  induction s as [|c s IH]; simpl; [now left|].
  destruct (Py.isspace c) eqn:Hc; [exact IH|].
  right. now exists c, s.
Qed.

Lemma lstrip_fixed (c : ascii) (r : string) :
  Py.isspace c = false -> Py.lstrip (String c r) = String c r.
Proof. intros Hc. simpl. now rewrite Hc. Qed.

Lemma lstrip_idem (s : string) : Py.lstrip (Py.lstrip s) = Py.lstrip s.
Proof.
  destruct (lstrip_head s) as [-> | (c & r & -> & Hc)]; [reflexivity|].
  now apply lstrip_fixed.
Qed.

Lemma strip_lstrip (s : string) : Py.strip (Py.lstrip s) = Py.strip s.
Proof. unfold Py.strip. now rewrite lstrip_idem. Qed.

Lemma lstrip_all_space (s : string) : all_space s = true -> Py.lstrip s = "".
Proof.
  induction s as [|c s IH]; simpl; [reflexivity|].
  intros [Hc Hs]%andb_prop. rewrite Hc. now apply IH.
Qed.

Lemma strip_all_space (s : string) : all_space s = true -> Py.strip s = "".
Proof. intros H. unfold Py.strip. now rewrite lstrip_all_space. Qed.

Lemma after_prefix_append (p r : string) :
  Py.after_prefix p (p +:+ r) = Some r.
Proof.
  induction p as [|a p IH]; [reflexivity|].
  rewrite append_cons. simpl. now rewrite Ascii.eqb_refl.
Qed.

Lemma prefix_append (p r : string) : String.prefix p (p +:+ r) = true.
Proof.
  induction p as [|a p IH]; [now destruct r|].
  rewrite append_cons. simpl.
  destruct (ascii_dec a a) as [_|Hne]; [exact IH | now elim Hne].
Qed.

Lemma contains_append_r (a b c : string) :
  Py.contains (a +:+ b +:+ c) b = true.
Proof.
  induction a as [|x a IH].
  - rewrite append_nil_l.
    destruct b as [|y b]; [now destruct c|].
    rewrite append_cons. unfold Py.contains; fold Py.contains.
    rewrite <- append_cons, prefix_append. reflexivity.
  - rewrite append_cons. unfold Py.contains; fold Py.contains.
    rewrite IH. apply orb_true_r.
Qed.

End StringFacts.

(** ** The response classifier *)

Section Classifier.
Import Llama3Agent.

Lemma command_match_marker (rest : string) :
  command_match ("[COMMAND]:" +:+ rest) = Some (Py.lstrip rest).
Proof. unfold command_match. now rewrite after_prefix_append. Qed.

(** C5. A model output that, once trimmed, starts with the command marker
    and its colon is classified as a command whose text is the trimmed
    remainder, newlines inside it kept; the command rule wins over the
    code-block rule, so such an output is never classified as code. *)
Theorem classify_command_marker (raw rest : string) :
  Py.strip raw = "[COMMAND]:" +:+ rest ->
  classify raw = Command (Py.strip rest)
  /\ forall body, classify raw <> Code body.
Proof.
  intros Hraw.
  assert (Hc : classify raw = Command (Py.strip rest)).
  { unfold classify. rewrite Hraw, command_match_marker.
    now rewrite strip_lstrip. }
  split; [exact Hc|]. intros body. rewrite Hc. discriminate.
Qed.

Lemma classify_command_marker_witness :
  let rest := " ```python" +:+ Py.nl +:+ "print(1)" +:+ Py.nl +:+ "```" in
  let raw := Py.nl +:+ "  [COMMAND]:" +:+ rest +:+ "  " +:+ Py.nl in
  Py.strip raw = "[COMMAND]:" +:+ rest
  /\ classify raw
     = Command ("```python" +:+ Py.nl +:+ "print(1)" +:+ Py.nl +:+ "```").
Proof.
  intros rest raw. split; [reflexivity|].
  exact (proj1 (classify_command_marker raw rest eq_refl)).
Defined.

(** C7. An empty or whitespace-only model output is classified as text
    with an empty body; [classify] is a total function, so no input makes
    it fail. *)
Theorem classify_blank (raw : string) :
  all_space raw = true -> classify raw = Text "".
Proof.
  intros Hraw. unfold classify. now rewrite strip_all_space.
Qed.

Lemma classify_blank_witness :
  all_space (" " +:+ Py.nl +:+ Fixture.tab) = true
  /\ classify (" " +:+ Py.nl +:+ Fixture.tab) = Text "".
Proof.
  split; [reflexivity|]. apply classify_blank. reflexivity.
Defined.

End Classifier.

(** ** The command safety gate *)

Section Gate.
Import Llama3Agent.

Lemma in_list_true (x : string) (l : list string) :
  Py.in_list x l = true <-> x ∈ l.
Proof. unfold Py.in_list. apply bool_decide_eq_true. Qed.

Lemma in_list_false (x : string) (l : list string) :
  Py.in_list x l = false <-> x ∉ l.
Proof. unfold Py.in_list. apply bool_decide_eq_false. Qed.

(** The gate in terms of the base token. *)
Lemma evaluate_base (self : t) (c base : string) :
  base_token c = Some base ->
  evaluate self c =
    if Py.in_list ".." (Py.split "/" c)
       && negb (Py.in_list base navigation_commands)
    then Denied traversal_alert
    else match whitelisted_commands self !! base with
         | Some true => Allowed base
         | _ => Denied (not_whitelisted base)
         end.
Proof.
  unfold base_token, evaluate.
  destruct (Py.split_maxsplit1 (Py.strip c)) as [|w ws]; simpl; [discriminate|].
  now intros [= ->].
Qed.

Lemma evaluate_no_token (self : t) (c : string) :
  base_token c = None ->
  evaluate self c = Denied "Error: No command provided for execution.".
Proof.
  unfold base_token, evaluate.
  now destruct (Py.split_maxsplit1 (Py.strip c)).
Qed.

(** A denied command never reaches [subprocess.run]. *)
Lemma denied_no_call (h : Host) (self : t) (c reason : string) :
  evaluate self c = Denied reason ->
  _execute_shell_command h self c = (reason, []).
Proof. intros H. unfold _execute_shell_command. now rewrite H. Qed.

Lemma not_whitelisted_names (base : string) :
  Py.contains (not_whitelisted base) base = true.
Proof. unfold not_whitelisted. apply contains_append_r. Qed.

(** C1, as amended.  A command text whose base token is absent from the
    whitelist is denied and [subprocess.run] is not called for it.  The
    reason names the command, unless the text has a [..] segment between
    slashes and the base token is none of cd, ls, cat, find, grep: the
    reason is then the traversal alert, which is checked first. *)
Theorem gate_denies_unlisted (h : Host) (self : t) (c base : string) :
  base_token c = Some base ->
  whitelisted_commands self !! base = None ->
  exists reason,
    evaluate self c = Denied reason
    /\ _execute_shell_command h self c = (reason, [])
    /\ ((".." ∈ Py.split "/" c /\ base ∉ navigation_commands) ->
        reason = traversal_alert)
    /\ (~ (".." ∈ Py.split "/" c /\ base ∉ navigation_commands) ->
        reason = not_whitelisted base
        /\ Py.contains reason base = true).
Proof.
  intros Hbase Hwl.
  pose proof (evaluate_base self c base Hbase) as He. rewrite Hwl in He.
  destruct (Py.in_list ".." (Py.split "/" c)) eqn:Hdots;
    destruct (Py.in_list base navigation_commands) eqn:Hnav;
    simpl in He.
  all: eexists; split; [exact He|]; split; [now apply denied_no_call|].
  all: first [apply in_list_true in Hdots | apply in_list_false in Hdots].
  all: first [apply in_list_true in Hnav | apply in_list_false in Hnav].
  all: split; intros Hcase;
    first [ reflexivity
          | split; [reflexivity | apply not_whitelisted_names]
          | tauto ].
Qed.

Lemma gate_denies_unlisted_witness :
  base_token "sudo reboot" = Some "sudo"
  /\ whitelisted_commands Fixture.agent !! "sudo" = None
  /\ exists reason,
       evaluate Fixture.agent "sudo reboot" = Denied reason
       /\ _execute_shell_command
            (Fixture.host Refused FileNotFoundError []) Fixture.agent
            "sudo reboot" = (reason, [])
       /\ ((".." ∈ Py.split "/" "sudo reboot"
            /\ "sudo" ∉ navigation_commands) -> reason = traversal_alert)
       /\ (~ (".." ∈ Py.split "/" "sudo reboot"
              /\ "sudo" ∉ navigation_commands) ->
           reason = not_whitelisted "sudo"
           /\ Py.contains reason "sudo" = true).
Proof.
  split; [reflexivity|]. split; [reflexivity|].
  apply gate_denies_unlisted; reflexivity.
Defined.

(** C1 as it is written fails: the base token [sudo] is not in the
    whitelist, yet the reason of the denial is the traversal alert, which
    does not name it. *)
Lemma gate_names_command_counterexample :
  base_token "sudo cat /../etc/shadow" = Some "sudo"
  /\ whitelisted_commands Fixture.agent !! "sudo" = None
  /\ evaluate Fixture.agent "sudo cat /../etc/shadow" = Denied traversal_alert
  /\ ~ (exists reason,
          evaluate Fixture.agent "sudo cat /../etc/shadow" = Denied reason
          /\ Py.contains reason "sudo" = true).
Proof.
  split; [reflexivity|]. split; [reflexivity|].
  assert (Hv : evaluate Fixture.agent "sudo cat /../etc/shadow"
               = Denied traversal_alert) by reflexivity.
  split; [exact Hv|].
  intros (reason & He & Hn). rewrite Hv in He. injection He as <-.
  vm_compute in Hn. discriminate.
Qed.

(** C2, as amended.  A command text with a [..] segment between slashes
    whose base token is none of the five commands cd, ls, cat, find, grep
    is denied with the traversal alert, whatever the whitelist holds, and
    [subprocess.run] is not called for it. *)
Theorem gate_blocks_traversal (h : Host) (self : t) (c base : string) :
  base_token c = Some base ->
  ".." ∈ Py.split "/" c ->
  base ∉ navigation_commands ->
  evaluate self c = Denied traversal_alert
  /\ _execute_shell_command h self c = (traversal_alert, []).
Proof.
  intros Hbase Hdots%in_list_true Hnav%in_list_false.
  assert (He : evaluate self c = Denied traversal_alert).
  { rewrite (evaluate_base self c base Hbase), Hdots, Hnav. reflexivity. }
  split; [exact He | now apply denied_no_call].
Qed.

Lemma gate_blocks_traversal_witness :
  base_token "rm -rf ../../" = Some "rm"
  /\ (".." ∈ Py.split "/" "rm -rf ../../")
  /\ ("rm" ∉ navigation_commands)
  /\ whitelisted_commands Fixture.agent !! "rm" = Some true
  /\ evaluate Fixture.agent "rm -rf ../../" = Denied traversal_alert
  /\ _execute_shell_command
       (Fixture.host Refused (Exited 0 "" "") []) Fixture.agent
       "rm -rf ../../" = (traversal_alert, []).
Proof.
  assert (Hdots : ".." ∈ Py.split "/" "rm -rf ../../")
    by (apply in_list_true; reflexivity).
  assert (Hnav : "rm" ∉ navigation_commands)
    by (apply in_list_false; reflexivity).
  split; [reflexivity|]. split; [exact Hdots|]. split; [exact Hnav|].
  split; [reflexivity|].
  exact (gate_blocks_traversal _ Fixture.agent "rm -rf ../../" "rm"
           eq_refl Hdots Hnav).
Defined.

(** C2 as it is written fails: [cd] followed by a tab is not taken as a
    directory change, its base token [cd] is none of ls, cat, find, grep
    and the text has a [..] segment, yet the denial is the one of the
    whitelist, not the traversal alert. *)
Lemma gate_traversal_four_counterexample :
  let c := "cd" +:+ Fixture.tab +:+ "/../etc" in
  Py.startswith c "cd " = false
  /\ base_token c = Some "cd"
  /\ (".." ∈ Py.split "/" c)
  /\ ("cd" ∉ ["ls"; "cat"; "find"; "grep"])
  /\ evaluate Fixture.agent c = Denied (not_whitelisted "cd")
  /\ evaluate Fixture.agent c <> Denied traversal_alert.
Proof.
  intros c.
  assert (Hv : evaluate Fixture.agent c = Denied (not_whitelisted "cd"))
    by reflexivity.
  split; [reflexivity|]. split; [reflexivity|].
  split; [apply in_list_true; reflexivity|].
  split; [apply in_list_false; reflexivity|].
  split; [exact Hv|]. rewrite Hv. discriminate.
Qed.

(** What the gate lets through is run once, in the working directory of
    the session, and reported by [report]. *)
Lemma allowed_runs (h : Host) (self : t) (c base : string) :
  evaluate self c = Allowed base ->
  _execute_shell_command h self c =
    (report base (subprocess_run h c (current_working_directory self)),
     [(c, current_working_directory self)]).
Proof. intros H. unfold _execute_shell_command. now rewrite H. Qed.

Lemma nonempty_false (s : string) : Py.nonempty s = false <-> s = "".
Proof. destruct s; simpl; split; congruence. Qed.

Lemma nonempty_true (s : string) : Py.nonempty s = true <-> s <> "".
Proof. destruct s; simpl; split; congruence. Qed.

(** C8, as amended.  For a command that the gate allows, the process is
    run once in the working directory of the session and the report is:
    the trimmed standard output in a block labelled as command output
    when that trimmed text is not empty; else the trimmed standard error
    in a block labelled as command error when it is not empty; else the
    fixed message of a run without output; for a non-zero exit status
    the status and the trimmed standard error; for an exception of the
    run other than [FileNotFoundError] the generic message followed by
    the text of the exception.  What is reported for a missing program
    and for [FileNotFoundError] is not part of this statement. *)
Theorem report_rule (h : Host) (self : t) (c base : string) :
  evaluate self c = Allowed base ->
  let cwd := current_working_directory self in
  let outcome := subprocess_run h c cwd in
  exists text,
    _execute_shell_command h self c = (text, [(c, cwd)])
    /\ (forall out err, outcome = Exited 0 out err ->
          (Py.strip out <> "" ->
             text = fenced "Command Output:" (Py.strip out))
          /\ (Py.strip out = "" -> Py.strip err <> "" ->
             text = fenced "Command Error:" (Py.strip err))
          /\ (Py.strip out = "" -> Py.strip err = "" ->
             text = "Command executed successfully with no output."))
    /\ (forall rc out err, rc <> 0 -> outcome = Exited rc out err ->
          text = "Command failed with exit code " +:+ Py.str_of_int rc
                 +:+ ":" +:+ Py.nl
                 +:+ fenced "Error Output:" (Py.strip err))
    /\ (forall msg, outcome = RunError msg ->
          text = "An unexpected error occurred during command execution: "
                 +:+ msg).
Proof.
  intros Hallowed cwd outcome.
  exists (report base outcome).
  split; [now apply allowed_runs|].
  split; [|split].
  - intros out err ->. simpl.
    destruct (Py.nonempty (Py.strip out)) eqn:Hout.
    + apply nonempty_true in Hout. repeat split; congruence.
    + apply nonempty_false in Hout.
      destruct (Py.nonempty (Py.strip err)) eqn:Herr.
      * apply nonempty_true in Herr. repeat split; congruence.
      * apply nonempty_false in Herr. repeat split; congruence.
  - intros rc out err Hrc ->. simpl.
    now destruct (Z.eqb_spec rc 0).
  - now intros msg ->.
Qed.

Lemma report_rule_witness :
  let h := Fixture.host Refused (Exited 0 ("a.txt" +:+ Py.nl) "") [] in
  evaluate Fixture.agent "ls -l" = Allowed "ls"
  /\ exists text,
       _execute_shell_command h Fixture.agent "ls -l"
         = (text, [("ls -l", "/home/user")])
       /\ text = fenced "Command Output:" "a.txt".
Proof.
  intros h. split; [reflexivity|].
  destruct (report_rule h Fixture.agent "ls -l" "ls" eq_refl)
    as (text & Hrun & Hexit & _).
  exists text. split; [exact Hrun|].
  apply (Hexit ("a.txt" +:+ Py.nl) ""); [reflexivity | discriminate].
Defined.

(** C8 as it is written fails: [echo] without arguments is allowed and
    prints one newline, so its standard output is not empty, yet the
    report is the fixed message of a run without output. *)
Lemma report_prefers_stdout_counterexample :
  let h := Fixture.host Refused (Exited 0 Py.nl "") [] in
  evaluate Fixture.agent "echo" = Allowed "echo"
  /\ subprocess_run h "echo" "/home/user" = Exited 0 Py.nl ""
  /\ Py.nl <> ""
  /\ _execute_shell_command h Fixture.agent "echo"
     = ("Command executed successfully with no output.",
        [("echo", "/home/user")]).
Proof. repeat split; discriminate. Qed.

(** With [shell=True] it is the shell that looks for the program: when it
    finds none it ends with status 127, and that outcome is reported as a
    failed command.  The message of a command not found is what is
    reported when the call itself raises [FileNotFoundError]. *)
Example exit_127_is_a_failed_command :
  report "df" (Exited 127 "" "/bin/sh: 1: df: not found")
  = "Command failed with exit code 127:" +:+ Py.nl
    +:+ fenced "Error Output:" "/bin/sh: 1: df: not found"
  /\ report "df" FileNotFoundError
     = "Error: Command 'df' not found. Is it installed?".
Proof. split; reflexivity. Qed.

End Gate.

(** ** The model gateway *)

Section Gateway.
Import Llama3Agent.

(** The guard [if response_generator is None] of [process_query] can
    never hold: a call of a generator function returns its generator. *)
Lemma generate_text_is_some (h : Host) (model : string) (messages : list Turn) :
  is_Some (OllamaClient.generate_text h model messages).
Proof. unfold OllamaClient.generate_text. eauto. Qed.

Lemma messages_nonempty (self : t) (query : string) :
  messages_for_ollama self query <> [].
Proof. discriminate. Qed.

(** Whatever goes wrong in the transport, the generator only ends. *)
Lemma failed_transport_yields_nothing (h : Host) (self : t) (query : string) :
  transport_failed
    (http_stream h "/chat" (model_name self) (messages_for_ollama self query)) ->
  OllamaClient.generate_text h (model_name self)
    (messages_for_ollama self query)
  = Some (OllamaClient.mkGenerator [] None).
Proof.
  intros Hfail. unfold OllamaClient.generate_text.
  rewrite bool_decide_eq_true_2 by apply messages_nonempty.
  destruct (http_stream h "/chat" (model_name self)
              (messages_for_ollama self query)) as [|code [txt|e]|msg|ls];
    now simpl in Hfail.
Qed.

Lemma failed_transport_says_nothing (h : Host) (self : t) (query : string) :
  transport_failed
    (http_stream h "/chat" (model_name self) (messages_for_ollama self query)) ->
  model_says h self query "".
Proof.
  intros Hfail. eexists. split.
  - now apply failed_transport_yields_nothing.
  - reflexivity.
Qed.

End Gateway.

(** ** The responder *)

Section Responder.
Import Llama3Agent.

Lemma process_query_says (h : Host) (self : t) (query full_response : string) :
  model_says h self query full_response ->
  process_query h self query
  = respond h (append_history self (user_turn query)) full_response.
Proof.
  intros (g & Hg & Hc). unfold process_query.
  change (model_name (append_history self (user_turn query)))
    with (model_name self).
  now rewrite Hg, Hc.
Qed.

Lemma respond_cd (h : Host) (self : t) (full_response c : string) :
  classify full_response = Command c ->
  Py.startswith c "cd " = true ->
  respond h self full_response
  = mkTurnResult
      (Return (snd (change_directory h self c)))
      (append_history (fst (change_directory h self c))
         (assistant_turn (snd (change_directory h self c))))
      [].
Proof.
  intros Hc Hcd. unfold respond. rewrite Hc, Hcd.
  now destruct (change_directory h self c).
Qed.

Lemma respond_shell (h : Host) (self : t) (full_response c : string) :
  classify full_response = Command c ->
  Py.startswith c "cd " = false ->
  respond h self full_response
  = mkTurnResult
      (Return (fst (_execute_shell_command h self c)))
      (append_history self
         (assistant_turn (fst (_execute_shell_command h self c))))
      (snd (_execute_shell_command h self c)).
Proof.
  intros Hc Hcd. unfold respond. rewrite Hc, Hcd.
  now destruct (_execute_shell_command h self c).
Qed.

(** Only a directory change touches the working directory, and nothing
    touches the whitelist. *)
Lemma change_directory_whitelist (h : Host) (self : t) (c : string) :
  whitelisted_commands (fst (change_directory h self c))
  = whitelisted_commands self.
Proof.
  unfold change_directory.
  now destruct (os_path_exists h _ && os_path_isdir h _).
Qed.

Lemma change_directory_history (h : Host) (self : t) (c : string) :
  conversation_history (fst (change_directory h self c))
  = conversation_history self.
Proof.
  unfold change_directory.
  now destruct (os_path_exists h _ && os_path_isdir h _).
Qed.

Lemma respond_history (h : Host) (self : t) (full_response : string) :
  exists out,
    returned (respond h self full_response) = Return out
    /\ conversation_history (agent (respond h self full_response))
       = conversation_history self ++ [assistant_turn out].
Proof.
  unfold respond.
  destruct (classify full_response) as [c|body|body]; [|now eexists..].
  destruct (Py.startswith c "cd ").
  - pose proof (change_directory_history h self c) as Hh.
    destruct (change_directory h self c) as [self' msg]. simpl in *.
    exists msg. now rewrite Hh.
  - destruct (_execute_shell_command h self c) as [text calls].
    now exists text.
Qed.

Lemma respond_whitelist (h : Host) (self : t) (full_response : string) :
  whitelisted_commands (agent (respond h self full_response))
  = whitelisted_commands self.
Proof.
  unfold respond.
  destruct (classify full_response) as [c|body|body]; [|reflexivity..].
  destruct (Py.startswith c "cd ").
  - pose proof (change_directory_whitelist h self c) as Hw.
    now destruct (change_directory h self c).
  - now destruct (_execute_shell_command h self c).
Qed.

(** The history after a turn: the user turn, then the assistant turn
    with the returned text when the call returns. *)
Lemma process_query_history (h : Host) (self : t) (query : string) :
  match returned (process_query h self query) with
  | Return out =>
      conversation_history (agent (process_query h self query))
      = conversation_history self ++ [user_turn query; assistant_turn out]
  | Raise _ =>
      conversation_history (agent (process_query h self query))
      = conversation_history self ++ [user_turn query]
  end.
Proof.
  destruct (generate_text_is_some h (model_name self)
              (messages_for_ollama self query)) as [g Hg].
  unfold process_query.
  change (model_name (append_history self (user_turn query)))
    with (model_name self).
  rewrite Hg.
  destruct (collect g) as [full|e]; simpl; [|reflexivity].
  destruct (respond_history h (append_history self (user_turn query)) full)
    as (out & -> & ->).
  simpl. now rewrite <- app_assoc.
Qed.

Lemma process_query_whitelist (h : Host) (self : t) (query : string) :
  whitelisted_commands (agent (process_query h self query))
  = whitelisted_commands self.
Proof.
  unfold process_query.
  destruct (OllamaClient.generate_text _ _ _) as [g|]; simpl; [|reflexivity].
  destruct (collect g) as [full|e]; simpl; [|reflexivity].
  now rewrite respond_whitelist.
Qed.

(** A turn whose gateway call fails is the turn of an empty answer. *)
Lemma failed_gateway_turn (h : Host) (self : t) (query : string) :
  transport_failed
    (http_stream h "/chat" (model_name self) (messages_for_ollama self query)) ->
  process_query h self query
  = mkTurnResult (Return "")
      (append_history (append_history self (user_turn query))
         (assistant_turn ""))
      [].
Proof.
  intros Hfail.
  now rewrite (process_query_says h self query "")
    by now apply failed_transport_says_nothing.
Qed.

(** C3, the code at its failing input.  When the backend refuses the
    connection the call still returns, with the empty text, and the
    history has grown by two turns: the user turn and an assistant turn
    with empty content.  The guard that was to return the apology after
    the user turn alone is never taken. *)
Theorem refused_gateway_appends_two
    (run : run_outcome) (dirs : list string) (self : t) (query : string) :
  let r := process_query (Fixture.host Refused run dirs) self query in
  returned r = Return ""
  /\ conversation_history (agent r)
     = conversation_history self ++ [user_turn query; assistant_turn ""]
  /\ length (conversation_history (agent r))
     = (length (conversation_history self) + 2)%nat.
Proof.
  intros r. subst r. rewrite failed_gateway_turn by exact I. simpl.
  split; [reflexivity|]. rewrite <- app_assoc. simpl.
  split; [reflexivity|]. now rewrite length_app.
Qed.

(** C4, the code at its failing input.  When the backend refuses the
    connection the gateway hands over a generator that yields nothing and
    lets no exception escape, and the turn returns the empty text, not
    the apology. *)
Theorem refused_connection_returns_empty
    (run : run_outcome) (dirs : list string) (self : t) (query : string) :
  let h := Fixture.host Refused run dirs in
  OllamaClient.generate_text h (model_name self)
    (messages_for_ollama self query)
  = Some (OllamaClient.mkGenerator [] None)
  /\ returned (process_query h self query) = Return ""
  /\ returned (process_query h self query) <> Return apology.
Proof.
  intros h. split; [now apply failed_transport_yields_nothing|].
  rewrite failed_gateway_turn by exact I. simpl.
  split; [reflexivity | discriminate].
Qed.

End Responder.

(** ** Directory changes *)

Section DirectoryChange.
Import Llama3Agent.

Lemma change_directory_spec (h : Host) (self : t) (c : string) :
  let new_path := Py.strip (Py.slice_from 3 c) in
  let target := resolved h self new_path in
  change_directory h self c
  = if os_path_exists h target && os_path_isdir h target
    then (set_cwd self target,
          "Changed current working directory to: `" +:+ target +:+ "`")
    else (self,
          "Error: Cannot change directory to `" +:+ new_path
          +:+ "`. Path does not exist or is not a directory.").
Proof. reflexivity. Qed.

(** C6. In a turn whose command is a directory change: when the resolved
    absolute path does not exist or is not a directory, the working
    directory stays as it was and the answer is the failure message with
    the path as it was asked for; the working directory differs after
    the turn only when the resolved path exists and is a directory, and
    it is then that path. *)
Theorem cd_rejected_keeps_cwd
    (h : Host) (self : t) (query full_response c : string) :
  model_says h self query full_response ->
  classify full_response = Command c ->
  Py.startswith c "cd " = true ->
  let new_path := Py.strip (Py.slice_from 3 c) in
  let target := resolved h self new_path in
  let r := process_query h self query in
  (os_path_exists h target && os_path_isdir h target = false ->
     current_working_directory (agent r) = current_working_directory self
     /\ returned r
        = Return ("Error: Cannot change directory to `" +:+ new_path
                  +:+ "`. Path does not exist or is not a directory.")
     /\ spawned r = [])
  /\ (current_working_directory (agent r) <> current_working_directory self ->
      os_path_exists h target = true /\ os_path_isdir h target = true
      /\ current_working_directory (agent r) = target).
Proof.
  intros Hsays Hc Hcd new_path target r. subst r.
  rewrite (process_query_says _ _ _ _ Hsays), (respond_cd _ _ _ _ Hc Hcd).
  rewrite change_directory_spec.
  change (resolved h (append_history self (user_turn query))
            (Py.strip (Py.slice_from 3 c))) with target.
  fold new_path.
  destruct (os_path_exists h target && os_path_isdir h target) eqn:Hdir;
    simpl.
  - split; [discriminate|]. intros _.
    apply andb_prop in Hdir. tauto.
  - split; [tauto|]. intros Hne. now elim Hne.
Qed.

Lemma cd_rejected_keeps_cwd_witness :
  let h := Fixture.host (Fixture.says "[COMMAND]:cd ../projects")
             FileNotFoundError [] in
  let r := process_query h Fixture.agent "go to my projects" in
  model_says h Fixture.agent "go to my projects" "[COMMAND]:cd ../projects"
  /\ classify "[COMMAND]:cd ../projects" = Command "cd ../projects"
  /\ Py.startswith "cd ../projects" "cd " = true
  /\ resolved h Fixture.agent "../projects" = "/home/projects"
  /\ os_path_exists h "/home/projects" && os_path_isdir h "/home/projects"
     = false
  /\ current_working_directory (agent r) = "/home/user"
  /\ returned r
     = Return "Error: Cannot change directory to `../projects`. Path does not exist or is not a directory.".
Proof.
  intros h r.
  assert (Hsays : model_says h Fixture.agent "go to my projects"
                    "[COMMAND]:cd ../projects")
    by (eexists; split; reflexivity).
  split; [exact Hsays|]. do 4 (split; [reflexivity|]).
  destruct (cd_rejected_keeps_cwd h Fixture.agent "go to my projects"
              "[COMMAND]:cd ../projects" "cd ../projects"
              Hsays eq_refl eq_refl) as [Hrej _].
  destruct (Hrej eq_refl) as (Hcwd & Hret & _).
  split; [exact Hcwd | exact Hret].
Defined.

(** C9. A directory change that succeeds and is applied again with the
    same resolved path leaves the working directory where the first
    application put it. *)
Theorem cd_twice_same_target (h : Host) (self : t) (c : string) :
  let new_path := Py.strip (Py.slice_from 3 c) in
  let once := fst (change_directory h self c) in
  let twice := fst (change_directory h once c) in
  os_path_exists h (resolved h self new_path)
    && os_path_isdir h (resolved h self new_path) = true ->
  resolved h once new_path = resolved h self new_path ->
  current_working_directory twice = current_working_directory once
  /\ current_working_directory once = resolved h self new_path.
Proof.
  intros new_path once twice Hok Hsame.
  assert (Honce : once = set_cwd self (resolved h self new_path)).
  { subst once. rewrite change_directory_spec. fold new_path.
    now rewrite Hok. }
  subst twice. rewrite change_directory_spec. fold new_path.
  rewrite Hsame, Hok. simpl. now rewrite Honce.
Qed.

Lemma cd_twice_same_target_witness :
  let h := Fixture.host Refused FileNotFoundError ["/var/log"] in
  let once := fst (change_directory h Fixture.agent "cd /var/log") in
  let twice := fst (change_directory h once "cd /var/log") in
  os_path_exists h (resolved h Fixture.agent "/var/log")
    && os_path_isdir h (resolved h Fixture.agent "/var/log") = true
  /\ resolved h once "/var/log" = resolved h Fixture.agent "/var/log"
  /\ current_working_directory twice = current_working_directory once
  /\ current_working_directory once = "/var/log".
Proof.
  intros h once twice. split; [reflexivity|]. split; [reflexivity|].
  exact (cd_twice_same_target h Fixture.agent "cd /var/log"
           eq_refl eq_refl).
Defined.

(** An absolute path resolves to the same place from every working
    directory, so for it the second hypothesis of C9 always holds. *)
Lemma resolved_absolute (h : Host) (self self' : t) (new_path : string) :
  Py.startswith new_path "/" = true ->
  resolved h self' new_path = resolved h self new_path.
Proof.
  intros Habs. unfold resolved, PosixPath.join. now rewrite Habs.
Qed.

(** A relative path does not: repeated, [cd ..] climbs twice. *)
Example cd_parent_twice :
  let h := Fixture.host Refused FileNotFoundError ["/home"; "/"] in
  let once := fst (change_directory h Fixture.agent "cd ..") in
  let twice := fst (change_directory h once "cd ..") in
  current_working_directory once = "/home"
  /\ current_working_directory twice = "/".
Proof. split; reflexivity. Qed.

(** C10. A command whose base token is [cd] but which does not start
    with [cd] and a space, the bare word included, is not taken as a
    directory change: it goes to the gate, which denies it because [cd]
    is not in the whitelist; nothing is run and the working directory
    stays as it was. *)
Theorem bare_cd_denied
    (h : Host) (self : t) (query full_response c : string) :
  model_says h self query full_response ->
  classify full_response = Command c ->
  base_token c = Some "cd" ->
  Py.startswith c "cd " = false ->
  whitelisted_commands self = the_whitelist ->
  let r := process_query h self query in
  evaluate self c = Denied (not_whitelisted "cd")
  /\ returned r
     = Return "Error: Command 'cd' is not explicitly whitelisted for execution."
  /\ current_working_directory (agent r) = current_working_directory self
  /\ spawned r = [].
Proof.
  intros Hsays Hc Hbase Hcd Hwl r. subst r.
  assert (He : forall s, whitelisted_commands s = the_whitelist ->
                         evaluate s c = Denied (not_whitelisted "cd")).
  { intros s Hs. rewrite (evaluate_base s c "cd" Hbase), Hs.
    assert (Py.in_list "cd" navigation_commands = true) as -> by reflexivity.
    rewrite andb_false_r. reflexivity. }
  split; [now apply He|].
  rewrite (process_query_says _ _ _ _ Hsays), (respond_shell _ _ _ _ Hc Hcd).
  rewrite (denied_no_call h _ c _
             (He (append_history self (user_turn query)) Hwl)). simpl.
  repeat split; reflexivity.
Qed.

Lemma bare_cd_denied_witness :
  let h := Fixture.host (Fixture.says "[COMMAND]: cd") (Exited 0 "" "") [] in
  let r := process_query h Fixture.agent "go home" in
  model_says h Fixture.agent "go home" "[COMMAND]: cd"
  /\ classify "[COMMAND]: cd" = Command "cd"
  /\ base_token "cd" = Some "cd"
  /\ Py.startswith "cd" "cd " = false
  /\ whitelisted_commands Fixture.agent = the_whitelist
  /\ evaluate Fixture.agent "cd" = Denied (not_whitelisted "cd")
  /\ returned r
     = Return "Error: Command 'cd' is not explicitly whitelisted for execution."
  /\ current_working_directory (agent r) = "/home/user"
  /\ spawned r = [].
Proof.
  intros h r.
  assert (Hsays : model_says h Fixture.agent "go home" "[COMMAND]: cd")
    by (eexists; split; reflexivity).
  split; [exact Hsays|]. do 4 (split; [reflexivity|]).
  exact (bare_cd_denied h Fixture.agent "go home" "[COMMAND]: cd" "cd"
           Hsays eq_refl eq_refl eq_refl eq_refl).
Defined.

(** The same with a tab after [cd]. *)
Example tab_cd_denied :
  let c := "cd" +:+ Fixture.tab +:+ "/tmp" in
  let h := Fixture.host (Fixture.says ("[COMMAND]:" +:+ c))
             (Exited 0 "" "") ["/tmp"] in
  let r := process_query h Fixture.agent "go to tmp" in
  returned r
  = Return "Error: Command 'cd' is not explicitly whitelisted for execution."
  /\ current_working_directory (agent r) = "/home/user"
  /\ spawned r = [].
Proof. repeat split; reflexivity. Qed.

End DirectoryChange.

(** ** Worked scenarios *)

Section Scenarios.
Import Llama3Agent.

Example strip_both_ends : Py.strip ("  ls -l " +:+ Py.nl) = "ls -l".
Proof. reflexivity. Qed.

Example split_on_slash :
  Py.split "/" "rm -rf ../../" = ["rm -rf .."; ".."; ""].
Proof. reflexivity. Qed.

Example split_first_word :
  Py.split_maxsplit1 " a  b c " = ["a"; "b c "].
Proof. reflexivity. Qed.

Example str_of_exit_status :
  Py.str_of_int 127 = "127" /\ Py.str_of_int (-9) = "-9".
Proof. split; reflexivity. Qed.

Example normpath_parent :
  PosixPath.normpath "/home/user/../projects" = "/home/projects"
  /\ PosixPath.normpath "/../a//b/./c/" = "/a/b/c"
  /\ PosixPath.normpath "../a/../../b" = "../../b"
  /\ PosixPath.normpath "//a" = "//a"
  /\ PosixPath.normpath "///a" = "/a".
Proof. repeat split; reflexivity. Qed.

(** The model asks for [ls -l]: the command is allowed, run once in the
    working directory of the session, and its output is returned in a
    labelled block; the history holds the two turns in order. *)
Example turn_ls :
  let h := Fixture.host (Fixture.says "[COMMAND]:ls -l")
             (Exited 0 ("a.txt" +:+ Py.nl) "") [] in
  let r := process_query h Fixture.agent "list my files" in
  returned r = Return (fenced "Command Output:" "a.txt")
  /\ spawned r = [("ls -l", "/home/user")]
  /\ conversation_history (agent r)
     = [user_turn "list my files";
        assistant_turn (fenced "Command Output:" "a.txt")].
Proof. repeat split; reflexivity. Qed.

(** The model asks for [rm -rf ../../]: denied by the traversal check,
    nothing is run. *)
Example turn_rm_parent :
  let h := Fixture.host (Fixture.says "[COMMAND]:rm -rf ../../")
             (Exited 0 "" "") [] in
  let r := process_query h Fixture.agent "clean up" in
  returned r = Return traversal_alert /\ spawned r = [].
Proof. split; reflexivity. Qed.

(** A fenced Python block is passed through as it is. *)
Example turn_python :
  let code := "```python" +:+ Py.nl +:+ "print(1)" +:+ Py.nl +:+ "```" in
  let h := Fixture.host (Fixture.says code) (Exited 0 "" "") [] in
  let r := process_query h Fixture.agent "print one" in
  classify code = Code code
  /\ returned r = Return code /\ spawned r = [].
Proof. repeat split; reflexivity. Qed.

(** A fragment that is true and not a string makes the turn raise, with
    the user turn alone added to the history. *)
Example turn_type_error :
  let body := Lines [Decoded (JObj [("response", JNum 7)])] in
  let r := process_query (Fixture.host body (Exited 0 "" "") [])
             Fixture.agent "hello" in
  returned r = Raise TypeError
  /\ conversation_history (agent r) = [user_turn "hello"].
Proof. split; reflexivity. Qed.

End Scenarios.

(** * Further properties *)

(** ** More on strings *)

Section MoreStringFacts.

Lemma append_assoc (a b c : string) : (a +:+ b) +:+ c = a +:+ b +:+ c.
Proof.
  induction a as [|x a IH]; [reflexivity|].
  rewrite !append_cons. now rewrite IH.
Qed.

Lemma append_nil_r (a : string) : a +:+ "" = a.
Proof.
  induction a as [|x a IH]; [reflexivity|].
  rewrite append_cons. now rewrite IH.
Qed.

Lemma rstrip_keeps_head (c : ascii) (r : string) :
  Py.isspace c = false -> Py.rstrip (String c r) = String c (Py.rstrip r).
Proof. intros Hc. simpl. rewrite Hc. now destruct (Py.rstrip r). Qed.

Lemma rstrip_idem (s : string) : Py.rstrip (Py.rstrip s) = Py.rstrip s.
Proof.
  induction s as [|c s IH]; [reflexivity|]. simpl.
  destruct (Py.rstrip s) as [|d r] eqn:Hr.
  - destruct (Py.isspace c) eqn:Hc; [reflexivity|]. simpl. now rewrite Hc.
  - change (Py.rstrip (String c (String d r)))
      with (match Py.rstrip (String d r) with
            | "" => if Py.isspace c then "" else String c ""
            | r' => String c r'
            end).
    now rewrite IH.
Qed.

Lemma lstrip_rstrip_lstrip (s : string) :
  Py.lstrip (Py.rstrip (Py.lstrip s)) = Py.rstrip (Py.lstrip s).
Proof.
  destruct (lstrip_head s) as [-> | (c & r & -> & Hc)]; [reflexivity|].
  rewrite (rstrip_keeps_head c r Hc). now apply lstrip_fixed.
Qed.

Lemma strip_idem (s : string) : Py.strip (Py.strip s) = Py.strip s.
Proof.
  unfold Py.strip. now rewrite lstrip_rstrip_lstrip, rstrip_idem.
Qed.

Lemma after_prefix_sound (p s r : string) :
  Py.after_prefix p s = Some r -> s = p +:+ r.
Proof.
  revert s. induction p as [|a p IH]; intros s; simpl.
  - now intros [= ->].
  - destruct s as [|b s]; [discriminate|].
    destruct (Ascii.eqb_spec a b) as [->|]; [|discriminate].
    intros H. rewrite append_cons. now rewrite (IH s H).
Qed.

Lemma prefix_cons (a b : ascii) (p s : string) :
  String.prefix (String a p) (String b s)
  = if ascii_dec a b then String.prefix p s else false.
Proof. reflexivity. Qed.

Lemma prefix_after (p s : string) :
  String.prefix p s = true <-> exists r, Py.after_prefix p s = Some r.
Proof.
  revert s. induction p as [|a p IH]; intros s.
  - split; [simpl; eauto | intros _; now destruct s].
  - destruct s as [|b s]; [split; [discriminate | now intros [r Hr]]|].
    rewrite prefix_cons. simpl.
    destruct (ascii_dec a b) as [->|Hne].
    + rewrite Ascii.eqb_refl. apply IH.
    + apply Ascii.eqb_neq in Hne. rewrite Hne.
      split; [discriminate | now intros [r Hr]].
Qed.

Lemma startswith_append (s p : string) :
  Py.startswith s p = true <-> exists r, s = p +:+ r.
Proof.
  unfold Py.startswith. rewrite prefix_after. split.
  - intros [r Hr]. exists r. now apply after_prefix_sound.
  - intros [r ->]. exists r. apply after_prefix_append.
Qed.

Lemma after_prefix_none (p s : string) :
  Py.after_prefix p s = None <-> Py.startswith s p = false.
Proof.
  unfold Py.startswith.
  destruct (String.prefix p s) eqn:Hp.
  - apply prefix_after in Hp as [r Hr]. rewrite Hr. split; discriminate.
  - destruct (Py.after_prefix p s) as [r|] eqn:Ha; [|tauto].
    assert (String.prefix p s = true) by (apply prefix_after; eauto).
    congruence.
Qed.

End MoreStringFacts.

(** ** More on the classifier *)

Section ClassifierCases.
Import Llama3Agent.

Lemma fence_is_no_marker (b : string) :
  Py.startswith b "```python" = true -> command_match b = None.
Proof.
  intros [r ->]%startswith_append. reflexivity.
Qed.

Lemma command_match_none (b : string) :
  command_match b = None <-> Py.startswith b "[COMMAND]:" = false.
Proof.
  unfold command_match. rewrite <- after_prefix_none.
  destruct (Py.after_prefix "[COMMAND]:" b); simpl; split; congruence.
Qed.

(** X1. The three kinds of answer, each by its condition on the trimmed
    text: a command exactly when the text starts with the marker and its
    colon, code exactly when it starts with the fence of a Python block,
    text exactly when it starts with neither; code and text carry the
    trimmed text itself. *)
Theorem classify_cases (raw : string) :
  (forall c, classify raw = Command c <->
     exists rest, Py.strip raw = "[COMMAND]:" +:+ rest /\ c = Py.strip rest)
  /\ (forall b, classify raw = Code b <->
        b = Py.strip raw /\ Py.startswith b "```python" = true)
  /\ (forall b, classify raw = Text b <->
        b = Py.strip raw
        /\ Py.startswith b "[COMMAND]:" = false
        /\ Py.startswith b "```python" = false).
Proof.
  split; [|split].
  - intros c. split.
    + unfold classify, command_match.
      destruct (Py.after_prefix "[COMMAND]:" (Py.strip raw)) as [g|] eqn:Hg;
        simpl.
      * intros [= <-]. exists g. split.
        -- now apply after_prefix_sound.
        -- apply strip_lstrip.
      * now destruct (Py.startswith (Py.strip raw) "```python").
    + intros (rest & Hraw & ->).
      unfold classify. rewrite Hraw, command_match_marker. now rewrite strip_lstrip.
  - intros b. unfold classify. split.
    + destruct (command_match (Py.strip raw)) eqn:Hm; [discriminate|].
      destruct (Py.startswith (Py.strip raw) "```python") eqn:Hf;
        [|discriminate].
      now intros [= <-].
    + intros [-> Hf]. now rewrite (fence_is_no_marker _ Hf), Hf.
  - intros b. unfold classify. split.
    + destruct (command_match (Py.strip raw)) eqn:Hm; [discriminate|].
      apply command_match_none in Hm.
      destruct (Py.startswith (Py.strip raw) "```python") eqn:Hf;
        [discriminate|].
      now intros [= <-].
    + intros (-> & Hm%command_match_none & Hf). now rewrite Hm, Hf.
Qed.

(** X2. Whitespace around the model output does not matter to the
    classification, and what the classification carries is trimmed. *)
Theorem classify_ignores_padding (raw : string) :
  classify (Py.strip raw) = classify raw
  /\ match classify raw with
     | Command payload | Code payload | Text payload =>
         Py.strip payload = payload
     end.
Proof.
  split.
  - unfold classify. now rewrite strip_idem.
  - unfold classify.
    destruct (command_match (Py.strip raw)) as [g|]; [apply strip_idem|].
    destruct (Py.startswith (Py.strip raw) "```python"); apply strip_idem.
Qed.

End ClassifierCases.

(** ** More on the command gate *)

Section GateCases.
Import Llama3Agent.

Lemma length_append (a b : string) :
  String.length (a +:+ b) = (String.length a + String.length b)%nat.
Proof.
  induction a as [|x a IH]; [reflexivity|].
  rewrite append_cons. simpl. now rewrite IH.
Qed.

Lemma split_nonempty (sep : ascii) (s : string) : Py.split sep s <> [].
Proof.
  destruct s as [|c s]; simpl; [discriminate|].
  destruct (Ascii.eqb c sep); [discriminate|].
  now destruct (Py.split sep s).
Qed.

(** [split] distributes over a separator. *)
Lemma split_append (sep : ascii) (a b : string) :
  Py.split sep (a +:+ String sep b) = Py.split sep a ++ Py.split sep b.
Proof.
  induction a as [|c a IH].
  - rewrite append_nil_l. simpl. now rewrite Ascii.eqb_refl.
  - rewrite append_cons. simpl. rewrite IH.
    destruct (Ascii.eqb c sep); [reflexivity|].
    pose proof (split_nonempty sep a) as Hne.
    now destruct (Py.split sep a).
Qed.

(** The first field of a split, and what the other fields are the split
    of. *)
Lemma split_head (sep : ascii) (s w : string) (ws : list string) :
  Py.split sep s = w :: ws ->
  (ws = [] /\ s = w)
  \/ exists r, s = w +:+ String sep r /\ ws = Py.split sep r.
Proof.
  revert w ws. induction s as [|c s IH]; intros w ws; simpl.
  - intros [= <- <-]. now left.
  - destruct (Ascii.eqb_spec c sep) as [->|Hne].
    + intros [= <- <-]. right. now exists s.
    + destruct (Py.split sep s) as [|w' ws'] eqn:Hs; [intros [= <- <-]|].
      * now elim (split_nonempty sep s).
      * intros [= <- <-].
        destruct (IH w' ws' eq_refl) as [[-> ->] | (r & -> & ->)].
        -- now left.
        -- right. now exists r.
Qed.

(** Where a field of a split sits in the text. *)
Lemma elem_of_split (sep : ascii) (x : string) (n : nat) :
  forall s, (String.length s < n)%nat ->
  x ∈ Py.split sep s ->
  s = x
  \/ (exists r, s = x +:+ String sep r)
  \/ (exists l, s = l +:+ String sep x)
  \/ (exists l r, s = l +:+ String sep (x +:+ String sep r)).
Proof.
  induction n as [|n IH]; intros s Hlen Hx; [lia|].
  destruct (Py.split sep s) as [|w ws] eqn:Hs;
    [now elim (split_nonempty sep s)|].
  destruct (split_head sep s w ws Hs) as [[-> ->] | (r & -> & ->)].
  - apply list_elem_of_singleton in Hx as ->. now left.
  - apply elem_of_cons in Hx as [-> | Hx].
    + right; left. now exists r.
    + rewrite length_append in Hlen. simpl in Hlen.
      destruct (IH r ltac:(lia) Hx)
        as [-> | [(r' & ->) | [(l & ->) | (l & r' & ->)]]].
      * right; right; left. now exists w.
      * right; right; right. now exists w, r'.
      * right; right; left. exists (w +:+ String sep l).
        now rewrite append_assoc, append_cons.
      * right; right; right. exists (w +:+ String sep l), r'.
        now rewrite append_assoc, append_cons.
Qed.

(** X3. The parent-directory check looks at the whole command text cut at
    slashes, so it fires exactly for a text that is [..], that starts
    with [../], that ends with [/..], or that holds [/../]; a [..] that
    follows a space, as in [rm -rf ..], is not seen. *)
Theorem traversal_check_forms (c : string) :
  ".." ∈ Py.split "/" c <->
  c = ".."
  \/ (exists r, c = "../" +:+ r)
  \/ (exists l, c = l +:+ "/..")
  \/ (exists l r, c = l +:+ "/../" +:+ r).
Proof.
  split.
  - intros H.
    exact (elem_of_split "/" ".." (S (String.length c)) c ltac:(lia) H).
  - intros [-> | [(r & ->) | [(l & ->) | (l & r & ->)]]].
    + apply in_list_true. reflexivity.
    + change ("../" +:+ r) with (".." +:+ String "/" r).
      rewrite split_append. apply elem_of_app. left.
      apply in_list_true. reflexivity.
    + change "/.." with (String "/" "..").
      rewrite split_append. apply elem_of_app. right.
      apply in_list_true. reflexivity.
    + change ("/../" +:+ r) with (String "/" (".." +:+ String "/" r)).
      rewrite !split_append. apply elem_of_app. right.
      apply elem_of_app. left. apply in_list_true. reflexivity.
Qed.

(** A parent directory named after a space passes the check. *)
Example parent_after_space_is_allowed :
  evaluate Fixture.agent "rm -rf .." = Allowed "rm"
  /\ evaluate Fixture.agent "rm ../notes" = Allowed "rm"
  /\ evaluate Fixture.agent "rm x/../notes" = Denied traversal_alert.
Proof. repeat split; reflexivity. Qed.

Lemma evaluate_allowed_inv (self : t) (c b : string) :
  evaluate self c = Allowed b ->
  base_token c = Some b
  /\ whitelisted_commands self !! b = Some true
  /\ ~ (".." ∈ Py.split "/" c /\ b ∉ navigation_commands).
Proof.
  destruct (base_token c) as [b0|] eqn:Hb.
  - rewrite (evaluate_base self c b0 Hb).
    destruct (Py.in_list ".." (Py.split "/" c)) eqn:Hdots;
      destruct (Py.in_list b0 navigation_commands) eqn:Hnav; simpl;
      try discriminate.
    all: destruct (whitelisted_commands self !! b0) as [[|]|] eqn:Hwl;
      try discriminate.
    all: intros [= <-]; split; [reflexivity|]; split; [exact Hwl|].
    all: first [apply in_list_true in Hnav | apply in_list_false in Hdots];
      tauto.
  - now rewrite (evaluate_no_token self c Hb).
Qed.

(** X4. The gate allows a command exactly when its base token is enabled
    in the whitelist and the parent-directory check does not fire for it;
    a token that is absent, or present with the value false, a blank text
    and a text stopped by the check are all denied. *)
Theorem gate_allows_iff (self : t) (c b : string) :
  evaluate self c = Allowed b <->
  base_token c = Some b
  /\ whitelisted_commands self !! b = Some true
  /\ ~ (".." ∈ Py.split "/" c /\ b ∉ navigation_commands).
Proof.
  split; [apply evaluate_allowed_inv|].
  intros (Hb & Hwl & Hno).
  rewrite (evaluate_base self c b Hb), Hwl.
  destruct (Py.in_list ".." (Py.split "/" c)) eqn:Hdots; [|reflexivity].
  destruct (Py.in_list b navigation_commands) eqn:Hnav; [reflexivity|].
  apply in_list_true in Hdots. apply in_list_false in Hnav. tauto.
Qed.

(** X5. A command marker with nothing but whitespace after it makes a turn
    that runs nothing: the answer is the message that no command was
    given, and the working directory stays. *)
Theorem blank_command_refused
    (h : Host) (self : t) (query full_response rest : string) :
  model_says h self query full_response ->
  Py.strip full_response = "[COMMAND]:" +:+ rest ->
  all_space rest = true ->
  let r := process_query h self query in
  returned r = Return "Error: No command provided for execution."
  /\ spawned r = []
  /\ current_working_directory (agent r) = current_working_directory self.
Proof.
  intros Hsays Hraw Hrest r. subst r.
  assert (Hc : classify full_response = Command "").
  { unfold classify. rewrite Hraw, command_match_marker.
    now rewrite strip_lstrip, strip_all_space. }
  rewrite (process_query_says _ _ _ _ Hsays).
  rewrite (respond_shell _ _ _ "" Hc eq_refl).
  repeat split; reflexivity.
Qed.

Lemma blank_command_refused_witness :
  let h := Fixture.host (Fixture.says ("[COMMAND]: " +:+ Py.nl))
             (Exited 0 "" "") [] in
  let r := process_query h Fixture.agent "do it" in
  model_says h Fixture.agent "do it" ("[COMMAND]: " +:+ Py.nl)
  /\ Py.strip ("[COMMAND]: " +:+ Py.nl) = "[COMMAND]:" +:+ ""
  /\ all_space "" = true
  /\ returned r = Return "Error: No command provided for execution."
  /\ spawned r = []
  /\ current_working_directory (agent r) = "/home/user".
Proof.
  intros h r.
  assert (Hsays : model_says h Fixture.agent "do it"
                    ("[COMMAND]: " +:+ Py.nl))
    by (eexists; split; reflexivity).
  split; [exact Hsays|]. do 2 (split; [reflexivity|]).
  exact (blank_command_refused h Fixture.agent "do it"
           ("[COMMAND]: " +:+ Py.nl) "" Hsays eq_refl eq_refl).
Defined.

(** X6. Of the two captured streams only one is reported: after a non-zero
    exit status the standard output is dropped, and after a success with
    a standard output that is not blank the standard error is dropped. *)
Theorem report_drops_other_stream
    (base out out' err err' : string) (rc : Z) :
  (rc <> 0 ->
   report base (Exited rc out err) = report base (Exited rc out' err))
  /\ (Py.strip out <> "" ->
      report base (Exited 0 out err) = report base (Exited 0 out err')).
Proof.
  split.
  - intros Hrc. simpl. now destruct (Z.eqb_spec rc 0).
  - intros Hout%nonempty_true. simpl. now rewrite Hout.
Qed.

Lemma report_drops_other_stream_witness :
  2 <> 0
  /\ Py.strip "a.txt" <> ""
  /\ report "ls" (Exited 2 "partial" "denied")
     = report "ls" (Exited 2 "" "denied")
  /\ report "ls" (Exited 0 "a.txt" "warning")
     = report "ls" (Exited 0 "a.txt" "").
Proof.
  assert (Hrc : 2 <> 0) by discriminate.
  assert (Hout : Py.strip "a.txt" <> "") by discriminate.
  split; [exact Hrc|]. split; [exact Hout|]. split.
  - exact (proj1 (report_drops_other_stream "ls" "partial" "" "denied"
                    "denied" 2) Hrc).
  - exact (proj2 (report_drops_other_stream "ls" "a.txt" "a.txt" "warning"
                    "" 0) Hout).
Defined.

(** X7. A turn runs at most one process.  When it runs one, the command
    is the command text that the classifier took from the answer of the
    model in this turn, whole and unchanged; it does not start with [cd]
    and a space, the gate allowed it, so its base token is enabled in the
    whitelist, it ran in the working directory that the session had
    before the turn, that directory is still the working directory, and
    when the turn returns, what it returns is the report of that run.
    The other way round, a command text of the model that is no
    directory change and that the gate allows is run. *)
Theorem turn_runs_at_most_one_process (h : Host) (self : t) (query : string) :
  let r := process_query h self query in
  (spawned r = []
   \/ exists full_response c base,
        model_says h self query full_response
        /\ classify full_response = Command c
        /\ spawned r = [(c, current_working_directory self)]
        /\ Py.startswith c "cd " = false
        /\ evaluate self c = Allowed base
        /\ whitelisted_commands self !! base = Some true
        /\ (forall out, returned r = Return out ->
              out = report base
                      (subprocess_run h c (current_working_directory self)))
        /\ current_working_directory (agent r)
           = current_working_directory self)
  /\ (forall full_response c base,
        model_says h self query full_response ->
        classify full_response = Command c ->
        Py.startswith c "cd " = false ->
        evaluate self c = Allowed base ->
        spawned r = [(c, current_working_directory self)]).
Proof.
  intros r. subst r. split.
  - unfold process_query.
    destruct (OllamaClient.generate_text h
                (model_name (append_history self (user_turn query)))
                (messages_for_ollama self query)) as [g|] eqn:Hg; [|now left].
    destruct (collect g) as [full|e] eqn:Hcollect; [|now left].
    assert (Hsays : model_says h self query full) by (exists g; now split).
    unfold respond.
    destruct (classify full) as [c|b|b] eqn:Hclass; [|now left..].
    destruct (Py.startswith c "cd ") eqn:Hcd.
    + left. now destruct (change_directory _ _ _).
    + unfold _execute_shell_command.
      change (evaluate (append_history self (user_turn query)) c)
        with (evaluate self c).
      destruct (evaluate self c) as [base|reason] eqn:He; [|now left].
      right. exists full, c, base.
      destruct (evaluate_allowed_inv self c base He) as (_ & Hwl & _).
      split; [exact Hsays|]. split; [exact Hclass|].
      split; [reflexivity|]. split; [exact Hcd|]. split; [exact He|].
      split; [exact Hwl|]. split; [|reflexivity].
      now intros out [= <-].
  - intros full c base Hsays Hclass Hcd He.
    rewrite (process_query_says _ _ _ _ Hsays).
    rewrite (respond_shell _ _ _ _ Hclass Hcd). simpl.
    unfold _execute_shell_command.
    change (evaluate (append_history self (user_turn query)) c)
      with (evaluate self c).
    now rewrite He.
Qed.

End GateCases.

(** ** More on directory changes and on single turns *)

Section TurnFacts.
Import Llama3Agent.

Lemma normpath_absolute (p : string) :
  absolute p -> absolute (PosixPath.normpath p).
Proof.
  unfold absolute. intros Hp.
  assert (Hne : Py.nonempty p = true)
    by (apply startswith_append in Hp as [r ->]; reflexivity).
  unfold PosixPath.normpath. rewrite Hne, Hp. cbv beta iota zeta. simpl negb.
  cbv iota.
  match goal with
  | |- context [if ?b then "//" else "/"] => destruct b
  end.
  - change (Py.nonempty ("//" +:+ ?x)) with true. cbv iota.
    apply startswith_append. now exists ("/" +:+ PosixPath.join_slash
      (rev (PosixPath.norm_comps true [] (Py.split "/" p)))).
  - change (Py.nonempty ("/" +:+ ?x)) with true. cbv iota.
    apply startswith_append. eauto.
Qed.

Lemma join_absolute (a b : string) :
  absolute a -> absolute (PosixPath.join a b).
Proof.
  unfold absolute, PosixPath.join. intros [r ->]%startswith_append.
  destruct (Py.startswith b "/") eqn:Hb; [exact Hb|].
  destruct (negb (Py.nonempty ("/" +:+ r))
            || PosixPath.ends_with_slash ("/" +:+ r));
    rewrite append_assoc; apply startswith_append; eauto.
Qed.

Lemma resolved_from_absolute (h : Host) (self : t) (new_path : string) :
  absolute (current_working_directory self) ->
  resolved h self new_path
  = PosixPath.normpath
      (PosixPath.join (current_working_directory self) new_path)
  /\ absolute (resolved h self new_path).
Proof.
  intros Habs.
  pose proof (join_absolute _ new_path Habs) as Hj.
  assert (Heq : resolved h self new_path
                = PosixPath.normpath
                    (PosixPath.join (current_working_directory self)
                       new_path)).
  { unfold resolved, PosixPath.abspath. unfold absolute in Hj.
    now rewrite Hj. }
  split; [exact Heq|]. rewrite Heq. now apply normpath_absolute.
Qed.

(** X8. While the working directory of the session is an absolute path, a
    directory change is resolved from it and from the requested path
    alone: the directory of the running process plays no part, and the
    resolved path is absolute again. *)
Theorem resolution_ignores_process_directory
    (h1 h2 : Host) (self : t) (new_path : string) :
  absolute (current_working_directory self) ->
  resolved h1 self new_path = resolved h2 self new_path
  /\ absolute (resolved h1 self new_path).
Proof.
  intros Habs.
  destruct (resolved_from_absolute h1 self new_path Habs) as [-> Ha].
  destruct (resolved_from_absolute h2 self new_path Habs) as [-> _].
  split; [reflexivity | exact Ha].
Qed.

Lemma resolution_ignores_process_directory_witness :
  let h1 := Fixture.host Refused FileNotFoundError [] in
  let h2 := mkHost (http_stream h1) (subprocess_run h1) (os_path_exists h1)
              (os_path_isdir h1) "/tmp/elsewhere" in
  absolute (current_working_directory Fixture.agent)
  /\ resolved h1 Fixture.agent "../projects"
     = resolved h2 Fixture.agent "../projects"
  /\ absolute (resolved h1 Fixture.agent "../projects").
Proof.
  intros h1 h2. split; [reflexivity|].
  exact (resolution_ignores_process_directory h1 h2 Fixture.agent
           "../projects" eq_refl).
Defined.

(** With a working directory that is not absolute the process directory
    does come in. *)
Example resolution_from_relative_cwd :
  let h := Fixture.host Refused FileNotFoundError [] in
  resolved h (set_cwd Fixture.agent "~") "x" = "/srv/neuro/~/x".
Proof. reflexivity. Qed.

(** X9. In any turn the working directory changes only to a path that the
    host has just reported as an existing directory; such a turn runs no
    process and answers with the new path. *)
Theorem cwd_moves_only_to_directories (h : Host) (self : t) (query : string) :
  let r := process_query h self query in
  let new := current_working_directory (agent r) in
  new <> current_working_directory self ->
  os_path_exists h new = true
  /\ os_path_isdir h new = true
  /\ spawned r = []
  /\ returned r
     = Return ("Changed current working directory to: `" +:+ new +:+ "`").
Proof.
  intros r new. subst new r. unfold process_query.
  destruct (OllamaClient.generate_text _ _ _) as [g|];
    [|now intros []].
  destruct (collect g) as [full|e]; [|now intros []].
  unfold respond.
  destruct (classify full) as [c|b|b]; [|now intros []..].
  destruct (Py.startswith c "cd ").
  - rewrite change_directory_spec.
    set (target := resolved _ _ _).
    destruct (os_path_exists h target && os_path_isdir h target) eqn:Hdir;
      simpl; [|now intros []].
    intros _. apply andb_prop in Hdir. tauto.
  - destruct (_execute_shell_command _ _ _). now intros [].
Qed.

Lemma cwd_moves_only_to_directories_witness :
  let h := Fixture.host (Fixture.says "[COMMAND]:cd ../projects")
             FileNotFoundError ["/home/projects"] in
  let r := process_query h Fixture.agent "go to my projects" in
  current_working_directory (agent r) = "/home/projects"
  /\ "/home/projects" <> current_working_directory Fixture.agent
  /\ os_path_exists h "/home/projects" = true
  /\ os_path_isdir h "/home/projects" = true
  /\ spawned r = []
  /\ returned r
     = Return "Changed current working directory to: `/home/projects`".
Proof.
  intros h r. split; [reflexivity|].
  assert (Hne : "/home/projects" <> current_working_directory Fixture.agent)
    by discriminate.
  split; [exact Hne|].
  exact (cwd_moves_only_to_directories h Fixture.agent "go to my projects"
           Hne).
Defined.

(** X10. A turn whose model output does not start with the command marker
    answers with the trimmed output itself, runs nothing and leaves the
    working directory alone; the history gets the query and that answer. *)
Theorem plain_answer_passes_through
    (h : Host) (self : t) (query full_response : string) :
  model_says h self query full_response ->
  Py.startswith (Py.strip full_response) "[COMMAND]:" = false ->
  let r := process_query h self query in
  returned r = Return (Py.strip full_response)
  /\ spawned r = []
  /\ current_working_directory (agent r) = current_working_directory self
  /\ conversation_history (agent r)
     = conversation_history self
       ++ [user_turn query; assistant_turn (Py.strip full_response)].
Proof.
  intros Hsays Hm%command_match_none r. subst r.
  rewrite (process_query_says _ _ _ _ Hsays).
  unfold respond, classify. rewrite Hm.
  destruct (Py.startswith (Py.strip full_response) "```python"); simpl;
    rewrite <- app_assoc; repeat split; reflexivity.
Qed.

Lemma plain_answer_passes_through_witness :
  let text := " Paris is the capital of France." +:+ Py.nl in
  let h := Fixture.host (Fixture.says text) (Exited 0 "" "") [] in
  let r := process_query h Fixture.agent "capital of France?" in
  model_says h Fixture.agent "capital of France?" text
  /\ Py.startswith (Py.strip text) "[COMMAND]:" = false
  /\ returned r = Return "Paris is the capital of France."
  /\ spawned r = []
  /\ current_working_directory (agent r) = "/home/user"
  /\ conversation_history (agent r)
     = [user_turn "capital of France?";
        assistant_turn "Paris is the capital of France."].
Proof.
  intros text h r.
  assert (Hsays : model_says h Fixture.agent "capital of France?" text)
    by (eexists; split; reflexivity).
  split; [exact Hsays|]. split; [reflexivity|].
  exact (plain_answer_passes_through h Fixture.agent "capital of France?"
           text Hsays eq_refl).
Defined.

(** X11. A turn that raises leaves a usable session behind: the query is
    in the history without an answer, and the working directory and the
    whitelist are as before. *)
Theorem raising_turn_keeps_session
    (h : Host) (self : t) (query : string) (e : exn) :
  let r := process_query h self query in
  returned r = Raise e ->
  conversation_history (agent r)
  = conversation_history self ++ [user_turn query]
  /\ current_working_directory (agent r) = current_working_directory self
  /\ whitelisted_commands (agent r) = whitelisted_commands self.
Proof.
  intros r. subst r. unfold process_query.
  destruct (OllamaClient.generate_text _ _ _) as [g|]; [|discriminate].
  destruct (collect g) as [full|e']; [|now intros _].
  destruct (respond_history h (append_history self (user_turn query)) full)
    as (out & Hout & _).
  rewrite Hout. discriminate.
Qed.

Lemma raising_turn_keeps_session_witness :
  let body := Lines [Decoded (JObj [("response", JNum 7)])] in
  let h := Fixture.host body (Exited 0 "" "") [] in
  let r := process_query h Fixture.agent "hello" in
  returned r = Raise TypeError
  /\ conversation_history (agent r) = [user_turn "hello"]
  /\ current_working_directory (agent r) = "/home/user"
  /\ whitelisted_commands (agent r) = the_whitelist.
Proof.
  intros body h r. split; [reflexivity|].
  exact (raising_turn_keeps_session h Fixture.agent "hello" TypeError eq_refl).
Defined.

End TurnFacts.

(** ** The console loop *)

Section ConsoleLoop.
Import Llama3Agent.

Lemma blank_is_not_exit (line : string) :
  all_space line = true -> String.eqb (Main.lower line) "exit" = false.
Proof.
  destruct line as [|c s]; [reflexivity|]. simpl.
  intros [Hc _]%andb_prop.
  destruct c as [[] [] [] [] [] [] [] []]; try discriminate Hc; reflexivity.
Qed.

Lemma main_loop_blank (h : Host) (line : string)
    (rest : list Main.console_event) (d : Dispatcher.t) :
  all_space line = true ->
  Main.main_loop (Main.Typed h line :: rest) d = Main.main_loop rest d.
Proof.
  intros Hblank. simpl.
  now rewrite (blank_is_not_exit line Hblank), (strip_all_space line Hblank).
Qed.

Lemma main_loop_query (h : Host) (line : string)
    (rest : list Main.console_event) (d : Dispatcher.t) :
  is_query line ->
  Main.main_loop (Main.Typed h line :: rest) d
  = let r := process_query h (Dispatcher.llama3_agent d) line in
    Main.show
      (match returned r with
       | Return response => Main.Answer response
       | Raise e => Main.Trouble e
       end)
      (spawned r)
      (Main.main_loop rest (Dispatcher.mk (agent r))).
Proof.
  intros [Hexit Hne]. simpl. rewrite Hexit, Hne. simpl.
  unfold Dispatcher.dispatch_request.
  now destruct (returned (process_query h (Dispatcher.llama3_agent d) line)).
Qed.

(** Each typed line is the word of the end, blank, or a query. *)
Lemma line_cases (line : string) :
  String.eqb (Main.lower line) "exit" = true
  \/ (String.eqb (Main.lower line) "exit" = false
      /\ Py.nonempty (Py.strip line) = false)
  \/ is_query line.
Proof.
  unfold is_query.
  destruct (String.eqb (Main.lower line) "exit"); [now left|].
  destruct (Py.nonempty (Py.strip line)); tauto.
Qed.

(** Induction over the rounds of the loop. *)
Lemma main_loop_ind (P : list Main.console_event -> Dispatcher.t -> Prop) :
  (forall d, P [] d) ->
  (forall rest d, P (Main.Interrupted :: rest) d) ->
  (forall msg rest d, P rest d -> P (Main.InputFailed msg :: rest) d) ->
  (forall h line rest d,
     String.eqb (Main.lower line) "exit" = true ->
     P (Main.Typed h line :: rest) d) ->
  (forall h line rest d,
     String.eqb (Main.lower line) "exit" = false ->
     Py.nonempty (Py.strip line) = false ->
     P rest d -> P (Main.Typed h line :: rest) d) ->
  (forall h line rest d,
     is_query line ->
     P rest (Dispatcher.mk
               (agent (process_query h (Dispatcher.llama3_agent d) line))) ->
     P (Main.Typed h line :: rest) d) ->
  forall events d, P events d.
Proof.
  intros Hnil Hint Hfail Hexit Hblank Hquery events.
  induction events as [|[h line| |msg] rest IH]; intros d; auto.
  destruct (line_cases line) as [He | [[He Hb] | Hq]]; auto.
Qed.

(** X12. A blank line at the prompt, wherever it comes, consumes no turn:
    the session, the screen and the processes run are those of the same
    console without that line. *)
Theorem blank_input_consumes_no_turn
    (h : Host) (line : string) (before after : list Main.console_event)
    (d : Dispatcher.t) :
  all_space line = true ->
  Main.main_loop (before ++ Main.Typed h line :: after) d
  = Main.main_loop (before ++ after) d.
Proof.
  intros Hblank. revert d.
  induction before as [|[h' line'| |msg] before IH]; intros d.
  - now apply main_loop_blank.
  - simpl.
    destruct (String.eqb (Main.lower line') "exit"); [reflexivity|].
    destruct (negb (Py.nonempty (Py.strip line'))); [apply IH|].
    now rewrite IH.
  - reflexivity.
  - simpl. now rewrite IH.
Qed.

Lemma blank_input_consumes_no_turn_witness :
  let h := Fixture.host (Fixture.says "hello") (Exited 0 "" "") [] in
  let d := Dispatcher.__init__ "/home/user" in
  all_space ("  " +:+ Fixture.tab) = true
  /\ Main.main_loop
       ([Main.Typed h "hi"] ++ Main.Typed h ("  " +:+ Fixture.tab)
          :: [Main.Typed h "exit"]) d
     = Main.main_loop ([Main.Typed h "hi"] ++ [Main.Typed h "exit"]) d.
Proof.
  intros h d. split; [reflexivity|].
  exact (blank_input_consumes_no_turn h ("  " +:+ Fixture.tab)
           [Main.Typed h "hi"] [Main.Typed h "exit"] d eq_refl).
Defined.

(** X13. The word exit, in any mix of upper and lower case, ends the loop:
    what is typed after it is never read, and the console is no longer
    running.  The line is compared as typed, so the word with a space
    around it is not the end but a query. *)
Theorem exit_ends_the_loop
    (h : Host) (line : string) (before after : list Main.console_event)
    (d : Dispatcher.t) :
  String.eqb (Main.lower line) "exit" = true ->
  Main.main_loop (before ++ Main.Typed h line :: after) d
  = Main.main_loop (before ++ [Main.Typed h line]) d
  /\ Main.running (Main.main_loop (before ++ Main.Typed h line :: after) d)
     = false.
Proof.
  intros Hexit. revert d.
  induction before as [|[h' line'| |msg] before IH]; intros d.
  - simpl. rewrite Hexit. now split.
  - simpl.
    destruct (String.eqb (Main.lower line') "exit"); [now split|].
    destruct (negb (Py.nonempty (Py.strip line'))); [apply IH|].
    destruct (returned _); simpl;
      destruct (IH (Dispatcher.mk (agent (Dispatcher.dispatch_request h' d line'))))
        as [-> ->]; now split.
  - now split.
  - simpl. destruct (IH d) as [-> ->]. now split.
Qed.

Lemma exit_ends_the_loop_witness :
  let h := Fixture.host (Fixture.says "hello") (Exited 0 "" "") [] in
  let d := Dispatcher.__init__ "/home/user" in
  String.eqb (Main.lower "ExIt") "exit" = true
  /\ Main.main_loop ([Main.Typed h "hi"] ++ Main.Typed h "ExIt"
                       :: [Main.Typed h "again"]) d
     = Main.main_loop ([Main.Typed h "hi"] ++ [Main.Typed h "ExIt"]) d
  /\ Main.running
       (Main.main_loop ([Main.Typed h "hi"] ++ Main.Typed h "ExIt"
                          :: [Main.Typed h "again"]) d)
     = false.
Proof.
  intros h d. split; [reflexivity|].
  exact (exit_ends_the_loop h "ExIt" [Main.Typed h "hi"]
           [Main.Typed h "again"] d eq_refl).
Defined.

(** The word with a space after it is sent to the model. *)
Example exit_with_space_is_a_query :
  is_query "exit " /\ dispatched [Main.Typed (Fixture.host Refused
                                     FileNotFoundError []) "exit "]
                      = ["exit "].
Proof. repeat split; reflexivity. Qed.

End ConsoleLoop.

(** ** What a whole session keeps *)

Section SessionInvariants.
Import Llama3Agent.

Lemma respond_fixed_fields (h : Host) (self : t) (full_response : string) :
  model_name (agent (respond h self full_response)) = model_name self
  /\ system_message (agent (respond h self full_response))
     = system_message self.
Proof.
  unfold respond.
  destruct (classify full_response) as [c|b|b]; [|now split..].
  destruct (Py.startswith c "cd ").
  - rewrite change_directory_spec.
    destruct (os_path_exists h _ && os_path_isdir h _); now split.
  - destruct (_execute_shell_command h self c). now split.
Qed.

Lemma process_query_fixed_fields (h : Host) (self : t) (query : string) :
  model_name (agent (process_query h self query)) = model_name self
  /\ system_message (agent (process_query h self query))
     = system_message self.
Proof.
  unfold process_query.
  destruct (OllamaClient.generate_text _ _ _) as [g|]; [|now split].
  destruct (collect g) as [full|e]; [|now split].
  apply (respond_fixed_fields h (append_history self (user_turn query)) full).
Qed.

Lemma process_query_cwd_absolute (h : Host) (self : t) (query : string) :
  absolute (current_working_directory self) ->
  absolute (current_working_directory (agent (process_query h self query))).
Proof.
  intros Habs. unfold process_query.
  destruct (OllamaClient.generate_text _ _ _) as [g|]; [|exact Habs].
  destruct (collect g) as [full|e]; [|exact Habs].
  unfold respond.
  destruct (classify full) as [c|b|b]; [|exact Habs..].
  destruct (Py.startswith c "cd ").
  - rewrite change_directory_spec.
    set (target := resolved _ _ _).
    destruct (os_path_exists h target && os_path_isdir h target);
      [|exact Habs].
    apply (resolved_from_absolute h (append_history self (user_turn query))
             _ Habs).
  - destruct (_execute_shell_command _ _ _). exact Habs.
Qed.

(** What every turn keeps, the whole session keeps. *)
Lemma main_loop_keeps (P : t -> Prop) :
  (forall h a q, P a -> P (agent (process_query h a q))) ->
  forall events d,
    P (Dispatcher.llama3_agent d) ->
    P (Dispatcher.llama3_agent (Main.dispatcher (Main.main_loop events d))).
Proof.
  intros Hstep.
  apply (main_loop_ind
           (fun events d =>
              P (Dispatcher.llama3_agent d) ->
              P (Dispatcher.llama3_agent
                   (Main.dispatcher (Main.main_loop events d))))).
  - auto.
  - auto.
  - intros msg rest d IH Hd. simpl. auto.
  - intros h line rest d Hexit Hd. simpl. now rewrite Hexit.
  - intros h line rest d Hexit Hblank IH Hd. simpl.
    rewrite Hexit, Hblank. simpl. auto.
  - intros h line rest d Hq IH Hd. rewrite (main_loop_query h line rest d Hq).
    simpl. apply IH. simpl. now apply Hstep.
Qed.

(** X14. From an absolute working directory a session never leaves the
    absolute paths, whatever is typed and whatever the model and the host
    do. *)
Theorem session_directory_stays_absolute
    (events : list Main.console_event) (d : Dispatcher.t) :
  absolute (current_working_directory (Dispatcher.llama3_agent d)) ->
  absolute (current_working_directory
              (Dispatcher.llama3_agent
                 (Main.dispatcher (Main.main_loop events d)))).
Proof.
  apply (main_loop_keeps (fun a => absolute (current_working_directory a))).
  intros h a q. apply process_query_cwd_absolute.
Qed.

Lemma session_directory_stays_absolute_witness :
  let h := Fixture.host (Fixture.says "[COMMAND]:cd ../projects")
             FileNotFoundError ["/home/projects"] in
  let d := Dispatcher.__init__ "/home/user" in
  absolute (current_working_directory (Dispatcher.llama3_agent d))
  /\ absolute (current_working_directory
                 (Dispatcher.llama3_agent
                    (Main.dispatcher
                       (Main.main_loop [Main.Typed h "go"; Main.Typed h "on"]
                          d)))).
Proof.
  intros h d. split; [reflexivity|].
  exact (session_directory_stays_absolute
           [Main.Typed h "go"; Main.Typed h "on"] d eq_refl).
Defined.

(** X15. The whitelist, the model name and the system message with which
    a session starts are those it ends with: no turn and no answer of the
    model changes the policy. *)
Theorem session_policy_fixed
    (events : list Main.console_event) (d : Dispatcher.t) :
  let a := Dispatcher.llama3_agent d in
  let a' := Dispatcher.llama3_agent
              (Main.dispatcher (Main.main_loop events d)) in
  whitelisted_commands a' = whitelisted_commands a
  /\ model_name a' = model_name a
  /\ system_message a' = system_message a.
Proof.
  intros a a'. subst a'.
  apply (main_loop_keeps
           (fun x => whitelisted_commands x = whitelisted_commands a
                     /\ model_name x = model_name a
                     /\ system_message x = system_message a)).
  - intros h x q (Hw & Hm & Hs).
    rewrite process_query_whitelist.
    destruct (process_query_fixed_fields h x q) as [-> ->]. auto.
  - auto.
Qed.

(** X16. The history of a session only grows: at the end it is the
    history of the start followed by turns of the user and of the
    assistant; the system message is never stored in it. *)
Theorem history_append_only
    (events : list Main.console_event) (d : Dispatcher.t) :
  exists added,
    conversation_history
      (Dispatcher.llama3_agent (Main.dispatcher (Main.main_loop events d)))
    = conversation_history (Dispatcher.llama3_agent d) ++ added
    /\ Forall stored_role added.
Proof.
  apply (main_loop_keeps
           (fun x => exists added,
              conversation_history x
              = conversation_history (Dispatcher.llama3_agent d) ++ added
              /\ Forall stored_role added)).
  - intros h x q (added & Hx & Hroles).
    pose proof (process_query_history h x q) as Hh.
    destruct (returned (process_query h x q)) as [out|e].
    + exists (added ++ [user_turn q; assistant_turn out]).
      rewrite Hh, Hx, app_assoc. split; [reflexivity|].
      apply Forall_app. split; [exact Hroles|].
      constructor; [now left|]. constructor; [now right|]. constructor.
    + exists (added ++ [user_turn q]).
      rewrite Hh, Hx, app_assoc. split; [reflexivity|].
      apply Forall_app. split; [exact Hroles|].
      constructor; [now left|]. constructor.
  - exists []. now rewrite app_nil_r.
Qed.

Lemma user_contents_app (l1 l2 : list Turn) :
  user_contents (l1 ++ l2) = user_contents l1 ++ user_contents l2.
Proof. unfold user_contents. now rewrite filter_app, fmap_app. Qed.

Lemma user_contents_turn (h : Host) (self : t) (query : string) :
  user_contents (conversation_history (agent (process_query h self query)))
  = user_contents (conversation_history self) ++ [query].
Proof.
  pose proof (process_query_history h self query) as Hh.
  destruct (returned (process_query h self query)); rewrite Hh;
    now rewrite user_contents_app.
Qed.

(** X17. The user turns of the history are the queries handed to the
    dispatcher, each once and in the order typed: blank lines, the word
    of the end and whatever follows it leave no trace, and a query whose
    turn raised is recorded like the others. *)
Theorem user_turns_are_dispatched_lines
    (events : list Main.console_event) (d : Dispatcher.t) :
  user_contents
    (conversation_history
       (Dispatcher.llama3_agent (Main.dispatcher (Main.main_loop events d))))
  = user_contents (conversation_history (Dispatcher.llama3_agent d))
    ++ dispatched events.
Proof.
  revert events d.
  apply (main_loop_ind
           (fun events d =>
              user_contents
                (conversation_history
                   (Dispatcher.llama3_agent
                      (Main.dispatcher (Main.main_loop events d))))
              = user_contents
                  (conversation_history (Dispatcher.llama3_agent d))
                ++ dispatched events)).
  - intros d. simpl. now rewrite app_nil_r.
  - intros rest d. simpl. now rewrite app_nil_r.
  - intros msg rest d IH. simpl. exact IH.
  - intros h line rest d Hexit. simpl. rewrite Hexit. simpl.
    now rewrite app_nil_r.
  - intros h line rest d Hexit Hblank IH. simpl. rewrite Hexit, Hblank.
    simpl. exact IH.
  - intros h line rest d Hq IH.
    rewrite (main_loop_query h line rest d Hq). simpl.
    destruct Hq as [Hexit Hne]. rewrite Hexit, Hne. simpl.
    rewrite IH. simpl. rewrite user_contents_turn. now rewrite <- app_assoc.
Qed.

Lemma turn_processes (h : Host) (self : t) (query : string) :
  forall c dir, (c, dir) ∈ spawned (process_query h self query) ->
  Py.startswith c "cd " = false
  /\ exists base,
       base_token c = Some base
       /\ whitelisted_commands self !! base = Some true
       /\ ~ (".." ∈ Py.split "/" c /\ base ∉ navigation_commands).
Proof.
  intros c dir. unfold process_query.
  destruct (OllamaClient.generate_text _ _ _) as [g|];
    [|now intros ?%elem_of_nil].
  destruct (collect g) as [full|e]; [|now intros ?%elem_of_nil].
  unfold respond.
  destruct (classify full) as [c'|b|b]; [|now intros ?%elem_of_nil..].
  destruct (Py.startswith c' "cd ") eqn:Hcd.
  - destruct (change_directory _ _ _). now intros ?%elem_of_nil.
  - unfold _execute_shell_command.
    change (evaluate (append_history self (user_turn query)) c')
      with (evaluate self c').
    destruct (evaluate self c') as [base|reason] eqn:He;
      [|now intros ?%elem_of_nil].
    intros [= -> ->]%list_elem_of_singleton.
    split; [exact Hcd|]. exists base.
    now apply evaluate_allowed_inv.
Qed.

(** X18. Every process started in the course of a session was started for
    a command text that does not begin with [cd] and a space, whose base
    token is enabled in the whitelist of the start, and for which the
    parent-directory check did not fire. *)
Theorem session_runs_only_whitelisted
    (events : list Main.console_event) (d : Dispatcher.t) (c dir : string) :
  (c, dir) ∈ Main.processes (Main.main_loop events d) ->
  Py.startswith c "cd " = false
  /\ exists base,
       base_token c = Some base
       /\ whitelisted_commands (Dispatcher.llama3_agent d) !! base = Some true
       /\ ~ (".." ∈ Py.split "/" c /\ base ∉ navigation_commands).
Proof.
  revert events d.
  apply (main_loop_ind
           (fun events d =>
              (c, dir) ∈ Main.processes (Main.main_loop events d) ->
              Py.startswith c "cd " = false
              /\ exists base,
                   base_token c = Some base
                   /\ whitelisted_commands (Dispatcher.llama3_agent d) !! base
                      = Some true
                   /\ ~ (".." ∈ Py.split "/" c
                         /\ base ∉ navigation_commands))).
  - intros d. simpl. now intros ?%elem_of_nil.
  - intros rest d. simpl. now intros ?%elem_of_nil.
  - intros msg rest d IH. simpl. exact IH.
  - intros h line rest d Hexit. simpl. rewrite Hexit. simpl.
    now intros ?%elem_of_nil.
  - intros h line rest d Hexit Hblank IH. simpl. rewrite Hexit, Hblank.
    simpl. exact IH.
  - intros h line rest d Hq IH.
    rewrite (main_loop_query h line rest d Hq). simpl.
    intros [Hin | Hin]%elem_of_app.
    + now apply (turn_processes h (Dispatcher.llama3_agent d) line c dir).
    + specialize (IH Hin). simpl in IH.
      now rewrite process_query_whitelist in IH.
Qed.

Lemma session_runs_only_whitelisted_witness :
  let h := Fixture.host (Fixture.says "[COMMAND]:ls -l")
             (Exited 0 "a.txt" "") [] in
  let d := Dispatcher.__init__ "/home/user" in
  ("ls -l", "/home/user")
    ∈ Main.processes (Main.main_loop [Main.Typed h "list"] d)
  /\ Py.startswith "ls -l" "cd " = false
  /\ exists base,
       base_token "ls -l" = Some base
       /\ whitelisted_commands (Dispatcher.llama3_agent d) !! base = Some true
       /\ ~ (".." ∈ Py.split "/" "ls -l" /\ base ∉ navigation_commands).
Proof.
  intros h d.
  assert (Hin : ("ls -l", "/home/user")
                  ∈ Main.processes (Main.main_loop [Main.Typed h "list"] d))
    by (apply list_elem_of_singleton; reflexivity).
  split; [exact Hin|].
  exact (session_runs_only_whitelisted [Main.Typed h "list"] d
           "ls -l" "/home/user" Hin).
Defined.

End SessionInvariants.

(** ** More on the model gateway *)

Section GatewayFacts.
Import OllamaClient.

Lemma py_in_object (key : string) (fields : list (string * json)) :
  py_in key (JObj fields)
  = Return (match dict_get fields key with Some _ => true | None => false end).
Proof. simpl. now destruct (dict_get fields key). Qed.

(** X19. What [_extract_content] takes from an object: the content of its
    message when the message is an object that has one, whatever else the
    object holds; else its response field when it has one; else nothing.
    A message without content does not hide the response field. *)
Theorem extract_content_precedence
    (fields message : list (string * json)) (c r : json) :
  (dict_get fields "message" = Some (JObj message) ->
   dict_get message "content" = Some c ->
   _extract_content (JObj fields) = Return c)
  /\ (dict_get fields "message" = None
      \/ (dict_get fields "message" = Some (JObj message)
          /\ dict_get message "content" = None) ->
      (dict_get fields "response" = Some r ->
       _extract_content (JObj fields) = Return r)
      /\ (dict_get fields "response" = None ->
          _extract_content (JObj fields) = Return JNull)).
Proof.
  split.
  - intros Hm Hc. unfold _extract_content.
    rewrite py_in_object, Hm. simpl. rewrite Hm. simpl. now rewrite Hc.
  - intros Hcase.
    assert (He : _extract_content (JObj fields)
                 = match dict_get fields "response" with
                   | Some x => Return x
                   | None => Return JNull
                   end).
    { unfold _extract_content. rewrite !py_in_object.
      destruct Hcase as [Hm | [Hm Hc]]; rewrite Hm; simpl.
      - now destruct (dict_get fields "response").
      - rewrite Hm. simpl. rewrite Hc. simpl.
        now destruct (dict_get fields "response"). }
    rewrite He. split; now intros ->.
Qed.

Lemma extract_content_precedence_witness :
  let message := [("role", JStr "assistant"); ("content", JStr "hi")] in
  let fields := [("response", JStr "other"); ("message", JObj message)] in
  dict_get fields "message" = Some (JObj message)
  /\ dict_get message "content" = Some (JStr "hi")
  /\ _extract_content (JObj fields) = Return (JStr "hi").
Proof.
  intros message fields. split; [reflexivity|]. split; [reflexivity|].
  exact (proj1 (extract_content_precedence fields message (JStr "hi") JNull)
           eq_refl eq_refl).
Defined.

Lemma stream_lines_app_end (before : list wire_line) (j : json)
    (after : list wire_line) :
  stream_lines (Decoded j :: after) = stream_lines [Decoded j] ->
  stream_lines (before ++ Decoded j :: after)
  = stream_lines (before ++ [Decoded j]).
Proof.
  intros Hj. induction before as [|[| |j'] before IH]; simpl.
  - exact Hj.
  - exact IH.
  - exact IH.
  - destruct (_extract_content j'); [|reflexivity].
    destruct (py_get j' "done") as [d|]; [|reflexivity].
    destruct (truthy d); [reflexivity|]. now rewrite IH.
Qed.

(** X20. The stream ends at the first object whose [done] field is true:
    no line after it contributes a fragment. *)
Theorem stream_stops_at_done
    (before after : list wire_line) (fields : list (string * json))
    (done : json) :
  dict_get fields "done" = Some done ->
  truthy done = true ->
  stream_lines (before ++ Decoded (JObj fields) :: after)
  = stream_lines (before ++ [Decoded (JObj fields)]).
Proof.
  intros Hd Ht. apply stream_lines_app_end. simpl.
  destruct (_extract_content (JObj fields)); [|reflexivity].
  rewrite Hd. simpl. now rewrite Ht.
Qed.

Lemma stream_stops_at_done_witness :
  let fields := [("message", JObj [("content", JStr "a")]);
                 ("done", JBool true)] in
  dict_get fields "done" = Some (JBool true)
  /\ truthy (JBool true) = true
  /\ stream_lines ([chat_line "x" false] ++ Decoded (JObj fields)
                     :: [chat_line "lost" false])
     = stream_lines ([chat_line "x" false] ++ [Decoded (JObj fields)]).
Proof.
  intros fields. split; [reflexivity|]. split; [reflexivity|].
  exact (stream_stops_at_done [chat_line "x" false] [chat_line "lost" false]
           fields (JBool true) eq_refl eq_refl).
Defined.

(** X21. Empty lines and lines that are not JSON are skipped: the
    fragments are those of the decoded lines alone. *)
Theorem stream_skips_noise (ls : list wire_line) :
  stream_lines ls = stream_lines (List.filter is_decoded ls).
Proof.
  induction ls as [|[| |j] ls IH]; simpl; try assumption; [reflexivity|].
  destruct (_extract_content j); [|reflexivity].
  destruct (py_get j "done") as [d|]; [|reflexivity].
  destruct (truthy d); [reflexivity|]. now rewrite IH.
Qed.

(** X22. A decoded line that is not an object ends the stream without a
    word: neither it nor any later line gives a fragment. *)
Theorem stream_non_object_truncates (j : json) (rest : list wire_line) :
  (forall fields, j <> JObj fields) ->
  stream_lines (Decoded j :: rest) = [].
Proof.
  intros Hj.
  destruct j as [|b|n|s|items|fields]; try reflexivity.
  - simpl. unfold _extract_content. simpl.
    destruct (Py.contains s "message"); [reflexivity|].
    destruct (Py.contains s "response"); reflexivity.
  - simpl. unfold _extract_content. simpl.
    destruct (existsb _ items); [reflexivity|].
    destruct (existsb _ items); reflexivity.
  - now elim (Hj fields).
Qed.

Lemma stream_non_object_truncates_witness :
  (forall fields, JArr [JStr "message"] <> JObj fields)
  /\ stream_lines (Decoded (JArr [JStr "message"]) :: [chat_line "lost" true])
     = [].
Proof.
  assert (H : forall fields, JArr [JStr "message"] <> JObj fields)
    by discriminate.
  split; [exact H|].
  exact (stream_non_object_truncates (JArr [JStr "message"])
           [chat_line "lost" true] H).
Defined.

Lemma stream_chat_line (fragment : string) (done : bool)
    (rest : list wire_line) :
  stream_lines (chat_line fragment done :: rest)
  = JStr fragment :: (if done then [] else stream_lines rest).
Proof. now destruct done. Qed.

Lemma stream_chat_lines (fragments : list string) (rest : list wire_line) :
  stream_lines (((fun f => chat_line f false) <$> fragments) ++ rest)
  = (JStr <$> fragments) ++ stream_lines rest.
Proof.
  induction fragments as [|f fragments IH]; [reflexivity|].
  rewrite !fmap_cons, <- !app_comm_cons, stream_chat_line. now rewrite IH.
Qed.

Lemma drain_fragments (fragments : list string) (acc : string)
    (rest : list json) :
  Llama3Agent.drain acc ((JStr <$> fragments) ++ rest)
  = Llama3Agent.drain (acc +:+ concat_fragments fragments) rest.
Proof.
  revert acc. induction fragments as [|f fragments IH]; intros acc.
  - simpl. now rewrite append_nil_r.
  - rewrite fmap_cons, <- app_comm_cons. simpl.
    destruct f as [|x f]; simpl.
    + rewrite IH. now rewrite append_nil_l.
    + rewrite IH. now rewrite append_assoc.
Qed.

(** X23. When the backend streams the fragments of an answer, each in a
    chat object, and marks the last one as done, the text that the
    responder works on is the fragments put together in the order sent;
    lines after the last one do not count. *)
Theorem fragments_concatenate
    (h : Host) (self : Llama3Agent.t) (query last : string)
    (fragments : list string) (after : list wire_line) :
  http_stream h "/chat" (Llama3Agent.model_name self)
    (Llama3Agent.messages_for_ollama self query)
  = Lines (((fun f => chat_line f false) <$> fragments)
           ++ chat_line last true :: after) ->
  model_says h self query (concat_fragments fragments +:+ last).
Proof.
  intros Hlines. unfold model_says, generate_text.
  rewrite bool_decide_eq_true_2 by apply messages_nonempty.
  rewrite Hlines. eexists. split; [reflexivity|].
  unfold Llama3Agent.collect. simpl yields.
  rewrite stream_chat_lines, stream_chat_line, drain_fragments.
  rewrite append_nil_l. simpl.
  destruct last as [|x last]; simpl.
  - now rewrite append_nil_r.
  - reflexivity.
Qed.

Lemma fragments_concatenate_witness :
  let lines := ((fun f => chat_line f false) <$> ["[COMM"; "AND]:"; "ls"])
               ++ chat_line "" true :: [chat_line "late" false] in
  let h := Fixture.host (Lines lines) (Exited 0 "" "") [] in
  http_stream h "/chat" (Llama3Agent.model_name Fixture.agent)
    (Llama3Agent.messages_for_ollama Fixture.agent "list")
  = Lines lines
  /\ model_says h Fixture.agent "list"
       (concat_fragments ["[COMM"; "AND]:"; "ls"] +:+ "").
Proof.
  intros lines h. split; [reflexivity|].
  exact (fragments_concatenate h Fixture.agent "list" ""
           ["[COMM"; "AND]:"; "ls"] [chat_line "late" false] eq_refl).
Defined.

End GatewayFacts.

(** ** The other paths of the client *)

Section ClientPaths.
Import OllamaApi.

(** The streamed chat call of the agent is the general [generate_text] at
    its arguments. *)
Lemma generate_text_chat (h : Host) (post : request -> post_outcome json)
    (model_name : string) (msgs : list Turn) :
  generate_text (client_of h post) model_name None (Some msgs) None true
  = OllamaClient.generate_text h model_name msgs.
Proof.
  unfold generate_text, OllamaClient.generate_text, route.
  destruct msgs as [|m msgs]; [reflexivity|]. simpl.
  destruct (http_stream h "/chat" model_name (m :: msgs)) as [|code [t|e]|msg|ls];
    reflexivity.
Qed.

(** X24. Without messages and without a prompt, each of them absent or
    empty, the call itself succeeds and hands over a generator; the
    [ValueError] comes out at the first step of its iteration, in both
    modes and whatever the backend would have answered. *)
Theorem missing_input_raises_on_iteration
    (c : Client) (model_name : string) (prompt : option string)
    (messages : option (list Turn)) (system_message : option string)
    (stream : bool) :
  list_truthy messages = false ->
  str_truthy prompt = false ->
  generate_text c model_name prompt messages system_message stream
  = Some (OllamaClient.mkGenerator [] (Some (ValueError missing_input))).
Proof.
  intros Hm Hp. unfold generate_text, route. now rewrite Hm, Hp.
Qed.

Lemma missing_input_raises_on_iteration_witness :
  let c := client_of (Fixture.host (Fixture.says "hi") (Exited 0 "" "") [])
             (fun _ => PostRefused) in
  list_truthy (Some ([] : list Turn)) = false
  /\ str_truthy (Some "") = false
  /\ generate_text c "m" (Some "") (Some []) (Some "be brief") true
     = Some (OllamaClient.mkGenerator [] (Some (ValueError missing_input))).
Proof.
  intros c. split; [reflexivity|]. split; [reflexivity|].
  exact (missing_input_raises_on_iteration c "m" (Some "") (Some [])
           (Some "be brief") true eq_refl eq_refl).
Defined.

(** X25. When there are messages the request goes to the chat endpoint
    with them alone: a prompt and a system message passed along are
    ignored. *)
Theorem chat_path_ignores_prompt
    (c : Client) (model_name : string) (prompt system_message : option string)
    (messages : list Turn) (stream : bool) :
  messages <> [] ->
  route model_name prompt (Some messages) system_message stream
  = Return (mkRequest "/chat" model_name (Some messages) None stream)
  /\ generate_text c model_name prompt (Some messages) system_message stream
     = generate_text c model_name None (Some messages) None stream.
Proof.
  intros Hne. destruct messages as [|m messages]; [now elim Hne|].
  split; reflexivity.
Qed.

Lemma chat_path_ignores_prompt_witness :
  let c := client_of (Fixture.host (Fixture.says "hi") (Exited 0 "" "") [])
             (fun _ => PostRefused) in
  let messages := [mkTurn "user" "hello"] in
  messages <> []
  /\ route "m" (Some "ignored") (Some messages) (Some "ignored too") true
     = Return (mkRequest "/chat" "m" (Some messages) None true)
  /\ generate_text c "m" (Some "ignored") (Some messages)
       (Some "ignored too") true
     = generate_text c "m" None (Some messages) None true.
Proof.
  intros c messages.
  assert (Hne : messages <> []) by discriminate.
  split; [exact Hne|].
  exact (chat_path_ignores_prompt c "m" (Some "ignored") (Some "ignored too")
           messages true Hne).
Defined.

(** X26. On the prompt path a system message is the same as the prompt
    with that message and an empty line put before it. *)
Theorem system_message_is_a_prefix
    (c : Client) (model_name prompt system_message : string)
    (messages : option (list Turn)) (stream : bool) :
  list_truthy messages = false ->
  prompt <> "" ->
  system_message <> "" ->
  generate_text c model_name (Some prompt) messages (Some system_message)
    stream
  = generate_text c model_name
      (Some (system_message +:+ Py.nl +:+ Py.nl +:+ prompt)) messages None
      stream.
Proof.
  intros Hm Hp Hs. unfold generate_text, route. rewrite Hm.
  destruct prompt as [|x prompt]; [now elim Hp|].
  destruct system_message as [|y system_message]; [now elim Hs|].
  reflexivity.
Qed.

Lemma system_message_is_a_prefix_witness :
  let c := client_of (Fixture.host (Fixture.says "hi") (Exited 0 "" "") [])
             (fun _ => PostRefused) in
  list_truthy (None : option (list Turn)) = false
  /\ "2+2?" <> ""
  /\ "be brief" <> ""
  /\ generate_text c "m" (Some "2+2?") None (Some "be brief") true
     = generate_text c "m"
         (Some ("be brief" +:+ Py.nl +:+ Py.nl +:+ "2+2?")) None None true.
Proof.
  intros c.
  assert (Hp : "2+2?" <> "") by discriminate.
  assert (Hs : "be brief" <> "") by discriminate.
  split; [reflexivity|]. split; [exact Hp|]. split; [exact Hs|].
  exact (system_message_is_a_prefix c "m" "2+2?" "be brief" None true
           eq_refl Hp Hs).
Defined.

(** X27. Called without [stream], [generate_text] still hands over a
    generator, and that generator gives no item, whatever the backend
    answers: the text of the answer is not delivered to a caller that
    iterates. *)
Theorem unstreamed_call_yields_nothing
    (c : Client) (model_name : string) (prompt : option string)
    (messages : option (list Turn)) (system_message : option string) :
  exists g,
    generate_text c model_name prompt messages system_message false = Some g
    /\ OllamaClient.yields g = [].
Proof.
  unfold generate_text. eexists. split; [reflexivity|].
  destruct (route model_name prompt messages system_message false)
    as [req|e]; [|reflexivity].
  destruct (client_post c req) as [| | | |body]; try reflexivity.
  now destruct (OllamaClient._extract_content body).
Qed.

End ClientPaths.

Section EmbeddingFacts.
Import Embeddings.

(** X28. [get_embeddings_for_text] asks the embeddings endpoint with the
    embedding model and the text, and gives a vector exactly when the
    reply is an object that holds one under its key; a refused
    connection, an error status, a body that is not JSON or not an
    object, and a missing key all give [None]. *)
Theorem embeddings_only_from_object
    (vector : Type)
    (post : string -> string -> string -> post_outcome (reply vector))
    (text : string) (v : vector) :
  get_embeddings_for_text post text = Some v <->
  post "/embeddings" "nomic-embed-text" text = PostBody (Object (Some v)).
Proof.
  unfold get_embeddings_for_text, get_embeddings, embedding_model_name.
  destruct (post "/embeddings" "nomic-embed-text" text)
    as [| | | |[|[w|]]]; split; congruence.
Qed.

End EmbeddingFacts.

(** ** The program as a whole *)

Section WholeProgram.
Import Llama3Agent.

Lemma the_whitelist_names (base : string) :
  the_whitelist !! base = Some true -> base ∈ listed_commands.
Proof.
  intros H. apply elem_of_list_to_map_2 in H.
  apply (list_elem_of_fmap_2 fst) in H. exact H.
Qed.

(** X29. Whatever is typed and whatever the model answers, a run of the
    program starts processes only for command texts whose first word is
    one of the fourteen names of the whitelist of [__init__]. *)
Theorem main_runs_only_listed_commands
    (home : string) (events : list Main.console_event) (c dir : string) :
  (c, dir) ∈ Main.processes (Main.main home events) ->
  exists base, base_token c = Some base /\ base ∈ listed_commands.
Proof.
  unfold Main.main.
  assert (Hw : whitelisted_commands
                 (Dispatcher.llama3_agent (Dispatcher.__init__ home))
               = the_whitelist) by reflexivity.
  revert Hw. generalize (Dispatcher.__init__ home). revert events.
  apply (main_loop_ind
           (fun events d =>
              whitelisted_commands (Dispatcher.llama3_agent d) = the_whitelist ->
              (c, dir) ∈ Main.processes (Main.main_loop events d) ->
              exists base, base_token c = Some base /\ base ∈ listed_commands)).
  - intros d _. simpl. now intros ?%elem_of_nil.
  - intros rest d _. simpl. now intros ?%elem_of_nil.
  - intros msg rest d IH Hw. simpl. now apply IH.
  - intros h line rest d Hexit _. simpl. rewrite Hexit. simpl.
    now intros ?%elem_of_nil.
  - intros h line rest d Hexit Hblank IH Hw. simpl. rewrite Hexit, Hblank.
    simpl. now apply IH.
  - intros h line rest d Hq IH Hw.
    rewrite (main_loop_query h line rest d Hq). simpl.
    intros [Hin | Hin]%elem_of_app.
    + destruct (turn_processes h _ line c dir Hin)
        as (_ & base & Hbase & Hon & _).
      exists base. split; [exact Hbase|].
      apply the_whitelist_names. now rewrite <- Hw.
    + apply IH; [|exact Hin]. simpl. now rewrite process_query_whitelist.
Qed.

Lemma main_runs_only_listed_commands_witness :
  let h := Fixture.host (Fixture.says "[COMMAND]:ls -l")
             (Exited 0 "a.txt" "") [] in
  ("ls -l", "/home/user")
    ∈ Main.processes (Main.main "/home/user" [Main.Typed h "list"])
  /\ exists base, base_token "ls -l" = Some base /\ base ∈ listed_commands.
Proof.
  intros h.
  assert (Hin : ("ls -l", "/home/user")
                  ∈ Main.processes
                      (Main.main "/home/user" [Main.Typed h "list"]))
    by (apply list_elem_of_singleton; reflexivity).
  split; [exact Hin|].
  exact (main_runs_only_listed_commands "/home/user" [Main.Typed h "list"]
           "ls -l" "/home/user" Hin).
Defined.

End WholeProgram.
